(** * Lead classification and orchestration: a shallow embedding

    The development follows the TypeScript sources of the practice
    orchestration system:

    - [core/types/lead.ts]   : [calculateLeadTier], [isActionReady]
    - [core/types/task.ts]   : [generateTaskName], [generateTaskDescription],
                               [calculateTaskPriority], [calculateDueDate],
                               [buildTaskFromLead]
    - [integrations/clickup/config.ts] : [getListIdForTier]
    - [core/config/team-mapping.ts]    : [getFrontDeskClickUpIds],
                                         [getFrontDeskSlackIds]
    - [workflows/lead-to-task.ts]      : [processLeadToTask],
                                         [processMultipleLeads]

    JavaScript numbers that the code uses as counters, tiers and time values
    are integers here ([Z]); optional properties are [option]; the truthiness
    tests of the source ([if (lead.phone)], [a || b]) are written out. *)

From Stdlib Require Import ZArith List String Ascii Bool Lia Permutation.
Import ListNotations.
Open Scope string_scope.
Open Scope Z_scope.

(** ** JavaScript values *)

Module JS.

(** Truthiness of an optional string: [undefined] and [''] are falsy. *)
Definition truthy (o : option string) : bool :=
  match o with
  | Some s => negb (String.eqb s "")
  | None => false
  end.

(** [a || b] on optional strings. *)
Definition or_else (a b : option string) : option string :=
  if truthy a then a else b.

(** [n || 0] on an optional counter: [undefined] and [0] both give [0]. *)
Definition or_zero (o : option Z) : Z :=
  match o with
  | Some n => if n =? 0 then 0 else n
  | None => 0
  end.

(** Truthiness of an optional number. *)
Definition truthy_num (o : option Z) : bool :=
  match o with
  | Some n => negb (n =? 0)
  | None => false
  end.

(** Template-literal interpolation of an optional string. *)
Definition interp (o : option string) : string :=
  match o with
  | Some s => s
  | None => "undefined"
  end.

(** Decimal digits of a natural number, most significant first. *)
Fixpoint digits_fuel (fuel : nat) (n : Z) (acc : string) : string :=
  match fuel with
  | O => acc
  | S fuel' =>
      let d := String (ascii_of_nat (48 + Z.to_nat (n mod 10))) acc in
      if n / 10 =? 0 then d else digits_fuel fuel' (n / 10) d
  end.

(** [Number.prototype.toString] on an integer. *)
Definition number_to_string (n : Z) : string :=
  if n <? 0
  then "-" ++ digits_fuel (S (Z.to_nat (Z.log2 (- n)))) (- n) ""
  else digits_fuel (S (Z.to_nat (Z.log2 n))) n "".

(** [Array.prototype.join]. *)
Fixpoint join (sep : string) (parts : list string) : string :=
  match parts with
  | [] => ""
  | [p] => p
  | p :: rest => p ++ sep ++ join sep rest
  end.

End JS.

(** ** The [Date] object

    Time values are milliseconds since the epoch, and the operations are the
    abstract operations of the language standard ([Day], [TimeWithinDay],
    [MakeTime], [MakeDay], [MakeDate], [LocalTime], [UTC]).  In this module
    the local time zone is a fixed offset [tza] from UTC, as on a host that
    runs in UTC; [HostZone] below has the zones whose offset changes.  Time
    values stay in the range where [TimeClip] is the identity. *)

Module JSDate.

Definition msPerSecond : Z := 1000.
Definition msPerMinute : Z := 60000.
Definition msPerHour : Z := 3600000.
Definition msPerDay : Z := 86400000.

Definition Day (t : Z) : Z := t / msPerDay.
Definition TimeWithinDay (t : Z) : Z := t mod msPerDay.

Definition DaysInYear (y : Z) : Z :=
  if negb (y mod 4 =? 0) then 365
  else if negb (y mod 100 =? 0) then 366
  else if negb (y mod 400 =? 0) then 365
  else 366.

Definition DayFromYear (y : Z) : Z :=
  365 * (y - 1970) + (y - 1969) / 4 - (y - 1901) / 100 + (y - 1601) / 400.

Definition TimeFromYear (y : Z) : Z := msPerDay * DayFromYear y.

(** The largest year whose first day is not after [t]: an estimate from the
    mean length of a year, corrected by at most one. *)
Definition YearFromTime (t : Z) : Z :=
  let y0 := 1970 + (Day t * 400) / 146097 in
  if Day t <? DayFromYear y0 then y0 - 1
  else if DayFromYear (y0 + 1) <=? Day t then y0 + 1
  else y0.

Definition InLeapYear (t : Z) : Z :=
  if DaysInYear (YearFromTime t) =? 366 then 1 else 0.

Definition DayWithinYear (t : Z) : Z := Day t - DayFromYear (YearFromTime t).

(** Day number, within its year, of the first day of month [m] (0-11). *)
Definition monthStart (m leap : Z) : Z :=
  match m with
  | 0 => 0
  | 1 => 31
  | 2 => 59 + leap
  | 3 => 90 + leap
  | 4 => 120 + leap
  | 5 => 151 + leap
  | 6 => 181 + leap
  | 7 => 212 + leap
  | 8 => 243 + leap
  | 9 => 273 + leap
  | 10 => 304 + leap
  | _ => 334 + leap
  end.

Definition MonthFromTime (t : Z) : Z :=
  let d := DayWithinYear t in
  let l := InLeapYear t in
  if d <? 31 then 0
  else if d <? 59 + l then 1
  else if d <? 90 + l then 2
  else if d <? 120 + l then 3
  else if d <? 151 + l then 4
  else if d <? 181 + l then 5
  else if d <? 212 + l then 6
  else if d <? 243 + l then 7
  else if d <? 273 + l then 8
  else if d <? 304 + l then 9
  else if d <? 334 + l then 10
  else 11.

Definition DateFromTime (t : Z) : Z :=
  DayWithinYear t - monthStart (MonthFromTime t) (InLeapYear t) + 1.

Definition HourFromTime (t : Z) : Z := (t / msPerHour) mod 24.
Definition MinFromTime (t : Z) : Z := (t / msPerMinute) mod 60.
Definition SecFromTime (t : Z) : Z := (t / msPerSecond) mod 60.
Definition msFromTime (t : Z) : Z := t mod msPerSecond.

Definition MakeTime (hour min sec ms : Z) : Z :=
  hour * msPerHour + min * msPerMinute + sec * msPerSecond + ms.

Definition MakeDay (year month date : Z) : Z :=
  let ym := year + month / 12 in
  let mn := month mod 12 in
  let leap := if DaysInYear ym =? 366 then 1 else 0 in
  DayFromYear ym + monthStart mn leap + date - 1.

Definition MakeDate (day time : Z) : Z := day * msPerDay + time.

Section LocalZone.

(** Offset of local time from UTC, in milliseconds. *)
Variable tza : Z.

Definition LocalTime (t : Z) : Z := t + tza.
Definition UTC (t : Z) : Z := t - tza.

Definition getTime (d : Z) : Z := d.
Definition getHours (d : Z) : Z := HourFromTime (LocalTime d).
Definition getDate (d : Z) : Z := DateFromTime (LocalTime d).

Definition opt_default (o : option Z) (dflt : Z) : Z :=
  match o with Some v => v | None => dflt end.

(** [setHours(hour [, min [, sec [, ms]]])]: absent arguments keep the
    local minutes, seconds and milliseconds. *)
Definition setHours (d : Z) (hour : Z) (min sec ms : option Z) : Z :=
  let t := LocalTime d in
  let m := opt_default min (MinFromTime t) in
  let s := opt_default sec (SecFromTime t) in
  let milli := opt_default ms (msFromTime t) in
  UTC (MakeDate (Day t) (MakeTime hour m s milli)).

(** [setDate(date)]: the day of the month, rolling over month ends. *)
Definition setDate (d : Z) (date : Z) : Z :=
  let t := LocalTime d in
  UTC (MakeDate (MakeDay (YearFromTime t) (MonthFromTime t) date)
                (TimeWithinDay t)).

End LocalZone.

End JSDate.

(** ** Leads ([core/types/lead.ts]) *)

(** [LeadTier] is declared as [1 | 2 | 3 | 4]; at run time it is a number, and
    the [default] branches of the code answer for every other value. *)
Definition LeadTier := Z.

Inductive LeadSource :=
| facebook_ad | instagram_dm | website_form | pdf_download
| manual_entry | referral | walk_in | event.

Inductive LeadTemperature := hot | warm | cold.

Inductive LeadStage :=
| stage_new | contacted | engaged | action_ready
| scheduled | converted | lost.

Definition LeadSource_to_string (s : LeadSource) : string :=
  match s with
  | facebook_ad => "facebook-ad"
  | instagram_dm => "instagram-dm"
  | website_form => "website-form"
  | pdf_download => "pdf-download"
  | manual_entry => "manual-entry"
  | referral => "referral"
  | walk_in => "walk-in"
  | event => "event"
  end.

Definition LeadTemperature_to_string (t : LeadTemperature) : string :=
  match t with hot => "hot" | warm => "warm" | cold => "cold" end.

Definition LeadStage_eqb (a b : LeadStage) : bool :=
  match a, b with
  | stage_new, stage_new | contacted, contacted | engaged, engaged
  | action_ready, action_ready | scheduled, scheduled
  | converted, converted | lost, lost => true
  | _, _ => false
  end.

Record Lead := mkLead {
  id : string;
  ghlContactId : option string;
  chiroHdLeadId : option string;
  clickupTaskId : option string;
  firstName : option string;
  lastName : option string;
  phone : option string;
  email : option string;
  socialHandle : option string;
  tier : LeadTier;
  source : LeadSource;
  temperature : LeadTemperature;
  stage : LeadStage;
  condition : option string;
  specificCondition : option string;
  isPregnant : option bool;
  birthDate : option string;
  emailsOpened : option Z;
  emailsClicked : option Z;
  smsReplied : option bool;
  lastEngagement : option string;
  campaignName : option string;
  createdAt : string;
  updatedAt : string;
  convertedAt : option string;
  notes : option string;
  tags : option (list string)
}.

(** [Partial<Lead>]: every property optional.  [calculateLeadTier] reads the
    name, the contact data and the health data only. *)
Record PartialLead := mkPartialLead {
  p_id : option string;
  p_firstName : option string;
  p_lastName : option string;
  p_phone : option string;
  p_email : option string;
  p_socialHandle : option string;
  p_tier : option LeadTier;
  p_source : option LeadSource;
  p_temperature : option LeadTemperature;
  p_stage : option LeadStage;
  p_condition : option string;
  p_specificCondition : option string;
  p_isPregnant : option bool;
  p_birthDate : option string
}.

(** A lead seen as a partial lead. *)
Definition partial_of (l : Lead) : PartialLead :=
  {| p_id := Some (id l);
     p_firstName := firstName l;
     p_lastName := lastName l;
     p_phone := phone l;
     p_email := email l;
     p_socialHandle := socialHandle l;
     p_tier := Some (tier l);
     p_source := Some (source l);
     p_temperature := Some (temperature l);
     p_stage := Some (stage l);
     p_condition := condition l;
     p_specificCondition := specificCondition l;
     p_isPregnant := isPregnant l;
     p_birthDate := birthDate l |}.

(** [lead.isPregnant !== undefined]. *)
Definition defined {A : Type} (o : option A) : bool :=
  match o with Some _ => true | None => false end.

Definition calculateLeadTier (lead : PartialLead) : LeadTier :=
  if JS.truthy (p_firstName lead) &&
     JS.truthy (p_lastName lead) &&
     JS.truthy (p_phone lead) &&
     JS.truthy (p_email lead) &&
     JS.truthy (p_specificCondition lead) &&
     (defined (p_isPregnant lead) || JS.truthy (p_birthDate lead))
  then 4
  else if JS.truthy (p_firstName lead) &&
          JS.truthy (p_lastName lead) &&
          JS.truthy (p_phone lead) &&
          JS.truthy (p_email lead) &&
          JS.truthy (p_condition lead)
  then 3
  else if JS.truthy (p_phone lead) && JS.truthy (p_email lead)
  then 2
  else 1.

Definition isActionReady (lead : Lead) : bool :=
  match tier lead with
  | 4 =>
      LeadStage_eqb (stage lead) engaged ||
      LeadStage_eqb (stage lead) action_ready
  | 3 =>
      (2 <=? JS.or_zero (emailsOpened lead)) &&
      (1 <=? JS.or_zero (emailsClicked lead))
  | 2 =>
      (3 <=? JS.or_zero (emailsOpened lead)) ||
      (1 <=? JS.or_zero (emailsClicked lead))
  | 1 => LeadStage_eqb (stage lead) action_ready
  | _ => false
  end.

(** ** Tasks ([core/types/task.ts]) *)

Inductive TaskPriority := urgent | high | normal | low.

Inductive TaskStatus := open | in_progress | completed | cancelled.

Record CustomFields := mkCustomFields {
  cf_leadSource : option string;
  cf_leadTier : option string;
  cf_leadTemperature : option string;
  cf_phone : option string;
  cf_email : option string;
  cf_condition : option string;
  cf_lastContact : option string
}.

Record ClickUpTask := mkClickUpTask {
  task_id : option string;
  listId : string;
  name : string;
  description : string;
  priority : TaskPriority;
  status : TaskStatus;
  assignees : list string;
  dueDate : option Z;
  task_createdAt : option Z;
  customFields : option CustomFields;
  task_tags : option (list string)
}.

Definition generateTaskName (lead : Lead) : string :=
  let name :=
    if JS.truthy (firstName lead) && JS.truthy (lastName lead)
    then JS.interp (firstName lead) ++ " " ++ JS.interp (lastName lead)
    else JS.interp
           (JS.or_else (email lead)
              (JS.or_else (phone lead)
                 (JS.or_else (socialHandle lead) (Some "Unknown Lead")))) in
  "Follow up with " ++ name ++ " (Tier " ++ JS.number_to_string (tier lead) ++ ")".

(** [parts.push(line)]. *)
Definition push (line : string) (parts : list string) : list string :=
  (parts ++ [line])%list.

(** [if (guard) parts.push(line)]. *)
Definition push_if (guard : bool) (line : string) (parts : list string)
  : list string :=
  if guard then push line parts else parts.

Section TaskBuilder.

(** [new Date(s).toLocaleDateString()], which depends on the host locale. *)
Variable toLocaleDateString : string -> string.

(** Offset of local time from UTC, in milliseconds: the host zone is taken
    with an offset that does not change; [HostZone.calculateDueDate] below
    is the due date in a zone whose offset does. *)
Variable tza : Z.

(** The lines of the description, in the order they are pushed. *)
Definition generateTaskDescription_parts (lead : Lead) : list string :=
  let parts := [] in
  let parts := push_if (JS.truthy (phone lead))
                 ("📞 " ++ JS.interp (phone lead)) parts in
  let parts := push_if (JS.truthy (email lead))
                 ("📧 " ++ JS.interp (email lead)) parts in
  let parts := push_if (JS.truthy (socialHandle lead))
                 ("📱 " ++ JS.interp (socialHandle lead)) parts in
  let parts :=
    push_if (JS.truthy (condition lead) || JS.truthy (specificCondition lead))
      (String "010" "🏥 Condition: " ++
       JS.interp (JS.or_else (specificCondition lead) (condition lead)))
      parts in
  let parts := push (String "010" "📍 Source: " ++
                     LeadSource_to_string (source lead)) parts in
  let parts :=
    push_if (JS.truthy_num (emailsOpened lead) ||
             JS.truthy_num (emailsClicked lead))
      (String "010" "📊 Engagement: " ++
       JS.number_to_string (JS.or_zero (emailsOpened lead)) ++ " opens, " ++
       JS.number_to_string (JS.or_zero (emailsClicked lead)) ++ " clicks")
      parts in
  let parts :=
    push_if (JS.truthy (lastEngagement lead))
      (String "010" "🕒 Last contact: " ++
       toLocaleDateString (JS.interp (lastEngagement lead)))
      parts in
  let parts := push_if (JS.truthy (notes lead))
                 (String "010" "📝 Notes: " ++ JS.interp (notes lead)) parts in
  let parts :=
    push_if (JS.truthy (ghlContactId lead))
      (String "010" "🔗 [View in GHL](https://app.gohighlevel.com/contacts/" ++
       JS.interp (ghlContactId lead) ++ ")")
      parts in
  parts.

Definition generateTaskDescription (lead : Lead) : string :=
  JS.join (String "010" "") (generateTaskDescription_parts lead).

Definition calculateTaskPriority (tier : LeadTier) : TaskPriority :=
  match tier with
  | 4 => urgent
  | 3 => high
  | 2 => normal
  | 1 => low
  | _ => normal
  end.

(** [calculateDueDate], with the reading [now] of the clock ([new Date()])
    made a parameter.  The [Date] object is updated in place by the source;
    here every setter returns the new time value. *)
Definition calculateDueDate (now : Z) (tier : LeadTier) : Z :=
  let now :=
    match tier with
    | 4 =>
        JSDate.setHours tza now (JSDate.getHours tza now + 2) None None None
    | 3 =>
        if JSDate.getHours tza now <? 15
        then JSDate.setHours tza now 17 (Some 0) (Some 0) (Some 0)
        else
          let now := JSDate.setDate tza now (JSDate.getDate tza now + 1) in
          JSDate.setHours tza now 17 (Some 0) (Some 0) (Some 0)
    | 2 =>
        let now := JSDate.setDate tza now (JSDate.getDate tza now + 1) in
        JSDate.setHours tza now 17 (Some 0) (Some 0) (Some 0)
    | 1 =>
        let now := JSDate.setDate tza now (JSDate.getDate tza now + 2) in
        JSDate.setHours tza now 17 (Some 0) (Some 0) (Some 0)
    | _ => now
    end in
  JSDate.getTime now.

Definition buildTaskFromLead (now : Z) (lead : Lead) (listId : string)
           (assignees : list string) : ClickUpTask :=
  {| task_id := None;
     listId := listId;
     name := generateTaskName lead;
     description := generateTaskDescription lead;
     priority := calculateTaskPriority (tier lead);
     status := open;
     assignees := assignees;
     dueDate := Some (calculateDueDate now (tier lead));
     task_createdAt := None;
     customFields :=
       Some {| cf_leadSource := Some (LeadSource_to_string (source lead));
               cf_leadTier := Some (JS.number_to_string (tier lead));
               cf_leadTemperature :=
                 Some (LeadTemperature_to_string (temperature lead));
               cf_phone := phone lead;
               cf_email := email lead;
               cf_condition :=
                 JS.or_else (condition lead) (specificCondition lead);
               cf_lastContact := lastEngagement lead |};
     task_tags :=
       Some (match tags lead with Some t => t | None => [] end) |}.

End TaskBuilder.

(** ** Configuration

    [CLICKUP_STRUCTURE], [SLACK_CONFIG] and the API tokens are read from the
    process environment; an unset variable gives the empty string (for the
    tokens: [undefined]). *)

Record ClickUpLists := mkClickUpLists {
  tier4Urgent : string;
  tier3High : string;
  tier2Normal : string;
  tier1Low : string
}.

Record Config := mkConfig {
  lists : ClickUpLists;
  frontDeskChannel : string;
  CLICKUP_API_TOKEN : option string;
  SLACK_BOT_TOKEN : option string
}.

Definition getListIdForTier (cfg : Config) (tier : LeadTier) : string :=
  match tier with
  | 4 => tier4Urgent (lists cfg)
  | 3 => tier3High (lists cfg)
  | 2 => tier2Normal (lists cfg)
  | 1 => tier1Low (lists cfg)
  | _ => tier2Normal (lists cfg)
  end.

Definition getFrontDeskChannelId (cfg : Config) : string :=
  frontDeskChannel cfg.

Inductive Role := front_desk | doctor | manager.

Record TeamMember := mkTeamMember {
  tm_name : string;
  tm_email : string;
  clickupId : option string;
  slackId : option string;
  role : Role
}.

Definition FRONT_DESK_TEAM : list TeamMember :=
  [ mkTeamMember "Lou Ann" "louann@vanevery.com" None None manager;
    mkTeamMember "Christina" "christina@vanevery.com" None None front_desk;
    mkTeamMember "Tricia" "tricia@vanevery.com" None None front_desk;
    mkTeamMember "Wendy" "wendy@vanevery.com" None None front_desk ].

(** [.filter((id) => id !== undefined)] after a [.map]. *)
Fixpoint filter_defined {A : Type} (l : list (option A)) : list A :=
  match l with
  | [] => []
  | Some a :: rest => a :: filter_defined rest
  | None :: rest => filter_defined rest
  end.

Definition getFrontDeskClickUpIds : list string :=
  filter_defined (map clickupId FRONT_DESK_TEAM).

Definition getFrontDeskSlackIds : list string :=
  filter_defined (map slackId FRONT_DESK_TEAM).

(** ** The workflow ([workflows/lead-to-task.ts]) *)

(** A thrown [Error]. *)
Record JSError := mkError { message : string }.

Record ClickUpTaskResponse := mkResponse {
  resp_id : string;
  resp_name : string;
  resp_url : string
}.

Record LeadToTaskResult := mkResult {
  success : bool;
  taskCreated : bool;
  taskId : option string;
  taskUrl : option string;
  slackNotified : bool;
  error : option string
}.

(** The calls that leave the process, each with what it returned. *)
Inductive Event :=
| EvCreateTask (task : ClickUpTask) (r : JSError + ClickUpTaskResponse)
| EvNotify (lead : Lead) (task : ClickUpTaskResponse)
           (userIds : list string) (channelId : string) (r : JSError + unit)
| EvDelay (ms : Z).

Section Workflow.

(** Everything outside the process: the two services and the clock. *)
Variable World : Type.

Record External := mkExternal {
  (** [new Date()] *)
  clock : World -> Z;
  (** [ClickUpClient.createTask] *)
  createTask : ClickUpTask -> World -> (JSError + ClickUpTaskResponse) * World;
  (** [SlackClient.notifyTaskCreated] *)
  notifyTaskCreated :
    Lead -> ClickUpTaskResponse -> list string -> string -> World ->
    (JSError + unit) * World;
  (** [setTimeout] *)
  sleep : Z -> World -> World
}.

Variable toLocaleDateString : string -> string.
Variable tza : Z.
Variable cfg : Config.
Variable ext : External.

(** Computations that may throw, act on the world, and emit events. *)
Definition M (A : Type) : Type := World -> (JSError + A) * World * list Event.

Definition ret {A : Type} (a : A) : M A := fun w => (inr a, w, []).

Definition throw {A : Type} (e : JSError) : M A := fun w => (inl e, w, []).

Definition bind {A B : Type} (m : M A) (k : A -> M B) : M B :=
  fun w =>
    match m w with
    | (inl e, w1, ev1) => (inl e, w1, ev1)
    | (inr a, w1, ev1) =>
        let '(r, w2, ev2) := k a w1 in (r, w2, (ev1 ++ ev2)%list)
    end.

(** [try { m } catch (error) { h error }] *)
Definition try_catch {A : Type} (m : M A) (h : JSError -> M A) : M A :=
  fun w =>
    match m w with
    | (inl e, w1, ev1) =>
        let '(r, w2, ev2) := h e w1 in (r, w2, (ev1 ++ ev2)%list)
    | (inr a, w1, ev1) => (inr a, w1, ev1)
    end.

Notation "x <- m ;; k" := (bind m (fun x => k))
  (at level 61, m at next level, right associativity).

Definition outcome {A : Type} (r : (JSError + A) * World * list Event)
  : JSError + A := fst (fst r).
Definition final {A : Type} (r : (JSError + A) * World * list Event)
  : World := snd (fst r).
Definition events {A : Type} (r : (JSError + A) * World * list Event)
  : list Event := snd r.

Definition now : M Z := fun w => (inr (clock ext w), w, []).

Definition getClickUpClient : M unit :=
  if JS.truthy (CLICKUP_API_TOKEN cfg) then ret tt
  else throw (mkError "CLICKUP_API_TOKEN must be set in environment variables").

Definition getSlackClient : M unit :=
  if JS.truthy (SLACK_BOT_TOKEN cfg) then ret tt
  else throw (mkError "SLACK_BOT_TOKEN must be set in environment variables").

Definition clickup_createTask (task : ClickUpTask) : M ClickUpTaskResponse :=
  fun w =>
    let '(r, w1) := createTask ext task w in (r, w1, [EvCreateTask task r]).

Definition slack_notifyTaskCreated (lead : Lead) (task : ClickUpTaskResponse)
           (userIds : list string) (channelId : string) : M unit :=
  fun w =>
    let '(r, w1) := notifyTaskCreated ext lead task userIds channelId w in
    (r, w1, [EvNotify lead task userIds channelId r]).

Definition delay (ms : Z) : M unit :=
  fun w => (inr tt, sleep ext ms w, [EvDelay ms]).

(** The body of the [try] block.  Console output is not part of the
    model. *)
Definition processLeadToTask_try (lead : Lead) : M LeadToTaskResult :=
  if negb (isActionReady lead) then
    ret {| success := true;
           taskCreated := false;
           taskId := None;
           taskUrl := None;
           slackNotified := false;
           error := Some "Lead not yet at action stage" |}
  else
    let listId := getListIdForTier cfg (tier lead) in
    if String.eqb listId "" then
      throw (mkError ("No ClickUp list configured for tier " ++
                      JS.number_to_string (tier lead)))
    else
      let assignees := getFrontDeskClickUpIds in
      t <- now ;;
      let taskData :=
        buildTaskFromLead toLocaleDateString tza t lead listId assignees in
      _ <- getClickUpClient ;;
      createdTask <- clickup_createTask taskData ;;
      let channelId := getFrontDeskChannelId cfg in
      if String.eqb channelId "" then
        ret {| success := true;
               taskCreated := true;
               taskId := Some (resp_id createdTask);
               taskUrl := Some (resp_url createdTask);
               slackNotified := false;
               error := None |}
      else
        let slackUserIds := getFrontDeskSlackIds in
        _ <- getSlackClient ;;
        _ <- slack_notifyTaskCreated lead createdTask slackUserIds channelId ;;
        ret {| success := true;
               taskCreated := true;
               taskId := Some (resp_id createdTask);
               taskUrl := Some (resp_url createdTask);
               slackNotified := true;
               error := None |}.

Definition processLeadToTask (lead : Lead) : M LeadToTaskResult :=
  try_catch (processLeadToTask_try lead)
    (fun error =>
       ret {| success := false;
              taskCreated := false;
              taskId := None;
              taskUrl := None;
              slackNotified := false;
              error := Some (message error) |}).

(** The [for ... of] loop of [processMultipleLeads], with the [results]
    array as accumulator. *)
Fixpoint processMultipleLeads_loop (leads : list Lead)
         (results : list LeadToTaskResult) : M (list LeadToTaskResult) :=
  match leads with
  | [] => ret results
  | lead :: rest =>
      result <- processLeadToTask lead ;;
      let results := (results ++ [result])%list in
      _ <- delay 1000 ;;
      processMultipleLeads_loop rest results
  end.

Definition processMultipleLeads (leads : list Lead)
  : M (list LeadToTaskResult) :=
  processMultipleLeads_loop leads [].

(** What a batch is expected to be: one run of the workflow per lead, in
    input order, each followed by the pause, whatever the outcome of the
    runs before it.  [BatchRun leads w outs w' evs] relates the leads and
    the starting world to the outcomes, the final world and the calls. *)
Inductive BatchRun : list Lead -> World -> list LeadToTaskResult ->
                     World -> list Event -> Prop :=
| BatchRun_nil : forall w, BatchRun [] w [] w []
| BatchRun_cons : forall lead rest w out w1 ev1 outs w2 evs,
    processLeadToTask lead w = (inr out, w1, ev1) ->
    BatchRun rest (sleep ext 1000 w1) outs w2 evs ->
    BatchRun (lead :: rest) w (out :: outs) w2
             (ev1 ++ EvDelay 1000 :: evs)%list.

End Workflow.

Arguments clock {World}.
Arguments createTask {World}.
Arguments notifyTaskCreated {World}.
Arguments sleep {World}.
Arguments mkExternal {World}.
Arguments outcome {World A}.
Arguments final {World A}.
Arguments events {World A}.
Arguments processLeadToTask_try {World}.
Arguments processLeadToTask {World}.
Arguments processMultipleLeads_loop {World}.
Arguments processMultipleLeads {World}.
Arguments BatchRun {World}.

(** ** The rules as the specification words them *)

(** A text field is present when it holds a non-empty text. *)
Definition present (o : option string) : bool := JS.truthy o.

Definition tier4_predicate (l : PartialLead) : bool :=
  present (p_firstName l) && present (p_lastName l) &&
  present (p_phone l) && present (p_email l) &&
  present (p_specificCondition l) &&
  (defined (p_isPregnant l) || present (p_birthDate l)).

Definition tier3_predicate (l : PartialLead) : bool :=
  present (p_firstName l) && present (p_lastName l) &&
  present (p_phone l) && present (p_email l) &&
  present (p_condition l).

Definition tier2_predicate (l : PartialLead) : bool :=
  present (p_phone l) && present (p_email l).

(** The ladder: rules tried from the top, the first that holds decides. *)
Definition ladder : list ((PartialLead -> bool) * LeadTier) :=
  [ (tier4_predicate, 4); (tier3_predicate, 3); (tier2_predicate, 2) ].

Fixpoint first_match (rules : list ((PartialLead -> bool) * LeadTier))
         (l : PartialLead) (default : LeadTier) : LeadTier :=
  match rules with
  | [] => default
  | (p, t) :: rest => if p l then t else first_match rest l default
  end.

(** A counter reaches [k]; an absent counter reaches nothing. *)
Definition at_least (o : option Z) (k : Z) : bool :=
  match o with
  | Some n => k <=? n
  | None => false
  end.

Definition stage_in (s : LeadStage) (allowed : list LeadStage) : bool :=
  existsb (LeadStage_eqb s) allowed.

(** The readiness rule of each tier; any other tier is not ready. *)
Definition readiness_rule (l : Lead) : bool :=
  if tier l =? 4 then stage_in (stage l) [engaged; action_ready]
  else if tier l =? 3 then
    at_least (emailsOpened l) 2 && at_least (emailsClicked l) 1
  else if tier l =? 2 then
    at_least (emailsOpened l) 3 || at_least (emailsClicked l) 1
  else if tier l =? 1 then stage_in (stage l) [action_ready]
  else false.

(** The outcome that reports a failure with message [msg]. *)
Definition failed (msg : string) : LeadToTaskResult :=
  {| success := false;
     taskCreated := false;
     taskId := None;
     taskUrl := None;
     slackNotified := false;
     error := Some msg |}.

(** A local time: day number [day] at [17:00:00.000]. *)
Definition at_17 (day : Z) : Z :=
  JSDate.MakeDate day (JSDate.MakeTime 17 0 0 0).

(** The condition line of the description. *)
Definition condition_line (text : string) : string :=
  String "010" "🏥 Condition: " ++ text.

(** ** Sample data, after the leads of the workflow test script *)

Module Sample.

Definition blank : Lead :=
  {| id := "test"; ghlContactId := None; chiroHdLeadId := None;
     clickupTaskId := None; firstName := None; lastName := None;
     phone := None; email := None; socialHandle := None; tier := 1;
     source := website_form; temperature := cold; stage := stage_new;
     condition := None; specificCondition := None; isPregnant := None;
     birthDate := None; emailsOpened := None; emailsClicked := None;
     smsReplied := None; lastEngagement := None; campaignName := None;
     createdAt := "2025-12-17T14:00:00.000Z";
     updatedAt := "2025-12-17T14:00:00.000Z";
     convertedAt := None; notes := None; tags := None |}.

Definition sarah : Lead :=
  {| id := "test-tier4-001"; ghlContactId := None; chiroHdLeadId := None;
     clickupTaskId := None;
     firstName := Some "Sarah"; lastName := Some "Johnson";
     phone := Some "+15551234567";
     email := Some "sarah.johnson@example.com";
     socialHandle := None; tier := 4;
     source := website_form; temperature := hot; stage := action_ready;
     condition := Some "Severe back pain - can barely walk";
     specificCondition := None; isPregnant := None;
     birthDate := None; emailsOpened := Some 5; emailsClicked := Some 3;
     smsReplied := None; lastEngagement := None; campaignName := None;
     createdAt := "2025-12-17T14:00:00.000Z";
     updatedAt := "2025-12-17T14:00:00.000Z";
     convertedAt := None; notes := None; tags := None |}.

Definition michael : Lead :=
  {| id := "test-tier3-002"; ghlContactId := None; chiroHdLeadId := None;
     clickupTaskId := None;
     firstName := Some "Michael"; lastName := Some "Rodriguez";
     phone := Some "+15559876543";
     email := Some "michael.r@example.com";
     socialHandle := None; tier := 3;
     source := referral; temperature := warm; stage := engaged;
     condition := Some "Neck pain and headaches";
     specificCondition := Some "Cervical strain after a car accident";
     isPregnant := Some false;
     birthDate := None; emailsOpened := Some 2; emailsClicked := Some 1;
     smsReplied := None; lastEngagement := None; campaignName := None;
     createdAt := "2025-12-17T14:00:00.000Z";
     updatedAt := "2025-12-17T14:00:00.000Z";
     convertedAt := None; notes := None; tags := None |}.

Definition jessica : Lead :=
  {| id := "test-tier2-003"; ghlContactId := None; chiroHdLeadId := None;
     clickupTaskId := None;
     firstName := Some "Jessica"; lastName := Some "Chen";
     phone := Some "+15554567890";
     email := Some "jchen@example.com";
     socialHandle := None; tier := 2;
     source := referral; temperature := warm; stage := engaged;
     condition := Some "General wellness check";
     specificCondition := None; isPregnant := None;
     birthDate := None; emailsOpened := Some 1; emailsClicked := Some 0;
     smsReplied := None; lastEngagement := None; campaignName := None;
     createdAt := "2025-12-17T14:00:00.000Z";
     updatedAt := "2025-12-17T14:00:00.000Z";
     convertedAt := None; notes := None; tags := None |}.

(** A lead whose tier is outside the declared range. *)
Definition tier5 : Lead :=
  {| id := "test-tier5"; ghlContactId := None; chiroHdLeadId := None;
     clickupTaskId := None; firstName := None; lastName := None;
     phone := None; email := None; socialHandle := Some "@someone";
     tier := 5;
     source := instagram_dm; temperature := cold; stage := action_ready;
     condition := None; specificCondition := None; isPregnant := None;
     birthDate := None; emailsOpened := None; emailsClicked := None;
     smsReplied := None; lastEngagement := None; campaignName := None;
     createdAt := "2025-12-17T14:00:00.000Z";
     updatedAt := "2025-12-17T14:00:00.000Z";
     convertedAt := None; notes := None; tags := None |}.

Definition configured : Config :=
  {| lists := {| tier4Urgent := "901100000004";
                 tier3High := "901100000003";
                 tier2Normal := "901100000002";
                 tier1Low := "901100000001" |};
     frontDeskChannel := "C0FRONTDESK";
     CLICKUP_API_TOKEN := Some "pk_test";
     SLACK_BOT_TOKEN := Some "xoxb-test" |}.

(** No list for tier 3. *)
Definition tier3_unset : Config :=
  {| lists := {| tier4Urgent := "901100000004";
                 tier3High := "";
                 tier2Normal := "901100000002";
                 tier1Low := "901100000001" |};
     frontDeskChannel := "C0FRONTDESK";
     CLICKUP_API_TOKEN := Some "pk_test";
     SLACK_BOT_TOKEN := Some "xoxb-test" |}.

(** 2025-12-17T14:00:00Z and 2025-12-17T16:00:00Z. *)
Definition at_14h : Z := 1765980000000.
Definition at_16h : Z := 1765987200000.

(** 2025-12-17T09:00:00Z and 2025-12-17T20:00:00Z. *)
Definition at_9h : Z := 1765962000000.
Definition at_20h : Z := 1766001600000.

Definition created (task : ClickUpTask) : ClickUpTaskResponse :=
  {| resp_id := "86abc";
     resp_name := name task;
     resp_url := "https://app.clickup.com/t/86abc" |}.

(** The world is the number of calls made so far; both services answer. *)
Definition healthy : External nat :=
  {| clock := fun _ => at_14h;
     createTask := fun task w => (inr (created task), S w);
     notifyTaskCreated := fun _ _ _ _ w => (inr tt, S w);
     sleep := fun _ w => w |}.

(** The task store answers, the messaging service does not. *)
Definition slack_down : External nat :=
  {| clock := fun _ => at_14h;
     createTask := fun task w => (inr (created task), S w);
     notifyTaskCreated :=
       fun _ _ _ _ w => (inl (mkError "Slack API error: channel_not_found"), S w);
     sleep := fun _ w => w |}.

(** The task store fails on its second call only. *)
Definition second_create_fails : External nat :=
  {| clock := fun _ => at_14h;
     createTask :=
       fun task w =>
         if Nat.eqb w 2
         then (inl (mkError "Request failed with status code 500"), S w)
         else (inr (created task), S w);
     notifyTaskCreated := fun _ _ _ _ w => (inr tt, S w);
     sleep := fun _ w => w |}.

Definition locale (s : string) : string := s.

End Sample.

(** ** The task-store client ([integrations/clickup/client.ts]) *)

Definition TaskPriority_to_string (p : TaskPriority) : string :=
  match p with
  | urgent => "urgent"
  | high => "high"
  | normal => "normal"
  | low => "low"
  end.

(** Own properties of an object literal used as a table. *)
Fixpoint table_get {A : Type} (key : string) (table : list (string * A))
  : option A :=
  match table with
  | [] => None
  | (k, v) :: rest => if String.eqb k key then Some v else table_get key rest
  end.

Definition priorityMap : list (string * Z) :=
  [ ("urgent", 1); ("high", 2); ("normal", 3); ("low", 4) ].

(** [priorityMap[priority] || 3]; [priority] ranges over the names of
    [TaskPriority] at its call sites. *)
Definition mapPriorityToValue (priority : string) : Z :=
  match table_get priority priorityMap with
  | Some v => if v =? 0 then 3 else v
  | None => 3
  end.

(** Both branches return the empty array: the field names are not mapped to
    field identifiers yet. *)
Definition formatCustomFields (customFields : option CustomFields)
  : list (string * string) :=
  match customFields with
  | None => []
  | Some _ => []
  end.

(** The body of the [POST] request of [createTask]. *)
Record CreateTaskPayload := mkPayload {
  pl_name : string;
  pl_description : string;
  pl_assignees : list string;
  pl_priority : Z;
  pl_due_date : option Z;
  pl_status : TaskStatus;
  pl_tags : list string;
  pl_custom_fields : list (string * string)
}.

Definition createTask_payload (task : ClickUpTask) : CreateTaskPayload :=
  {| pl_name := name task;
     pl_description := description task;
     pl_assignees := assignees task;
     pl_priority := mapPriorityToValue (TaskPriority_to_string (priority task));
     pl_due_date := dueDate task;
     pl_status := status task;
     pl_tags := match task_tags task with Some t => t | None => [] end;
     pl_custom_fields := formatCustomFields (customFields task) |}.

(** The path of the request: [`/list/${task.listId}/task`]. *)
Definition createTask_path (task : ClickUpTask) : string :=
  "/list/" ++ listId task ++ "/task".

(** ** The configuration read from the environment
    ([integrations/clickup/config.ts], [integrations/slack/config.ts]) *)

(** [process.env]. *)
Definition ProcessEnv := string -> option string.

(** [process.env.KEY || '']. *)
Definition env_or_empty (env : ProcessEnv) (key : string) : string :=
  if JS.truthy (env key) then JS.interp (env key) else "".

Record ClickUpStructure := mkStructure {
  workspaceId : string;
  frontDesk_id : string;
  newLeads_id : string;
  newLeads_lists : ClickUpLists;
  channels_frontDesk : string
}.

Definition CLICKUP_STRUCTURE (env : ProcessEnv) : ClickUpStructure :=
  {| workspaceId := env_or_empty env "CLICKUP_WORKSPACE_ID";
     frontDesk_id := env_or_empty env "CLICKUP_FRONT_DESK_SPACE_ID";
     newLeads_id := env_or_empty env "CLICKUP_NEW_LEADS_FOLDER_ID";
     newLeads_lists :=
       {| tier4Urgent := env_or_empty env "CLICKUP_TIER4_LIST_ID";
          tier3High := env_or_empty env "CLICKUP_TIER3_LIST_ID";
          tier2Normal := env_or_empty env "CLICKUP_TIER2_LIST_ID";
          tier1Low := env_or_empty env "CLICKUP_TIER1_LIST_ID" |};
     channels_frontDesk := env_or_empty env "SLACK_FRONT_DESK_CHANNEL_ID" |}.

(** [SLACK_CONFIG.channels.frontDesk]. *)
Definition SLACK_CONFIG_frontDesk (env : ProcessEnv) : string :=
  env_or_empty env "SLACK_FRONT_DESK_CHANNEL_ID".

Record Validation := mkValidation {
  valid : bool;
  missing : list string
}.

(** [missing.length === 0]. *)
Definition is_empty {A : Type} (l : list A) : bool :=
  match l with [] => true | _ :: _ => false end.

Definition validateStructure (s : ClickUpStructure) : Validation :=
  let missing := [] in
  let missing := push_if (String.eqb (workspaceId s) "")
                   "CLICKUP_WORKSPACE_ID" missing in
  let missing := push_if (String.eqb (frontDesk_id s) "")
                   "CLICKUP_FRONT_DESK_SPACE_ID" missing in
  let missing := push_if (String.eqb (newLeads_id s) "")
                   "CLICKUP_NEW_LEADS_FOLDER_ID" missing in
  let lists := newLeads_lists s in
  let missing := push_if (String.eqb (tier4Urgent lists) "")
                   "CLICKUP_TIER4_LIST_ID" missing in
  let missing := push_if (String.eqb (tier3High lists) "")
                   "CLICKUP_TIER3_LIST_ID" missing in
  let missing := push_if (String.eqb (tier2Normal lists) "")
                   "CLICKUP_TIER2_LIST_ID" missing in
  let missing := push_if (String.eqb (tier1Low lists) "")
                   "CLICKUP_TIER1_LIST_ID" missing in
  let missing := push_if (String.eqb (channels_frontDesk s) "")
                   "SLACK_FRONT_DESK_CHANNEL_ID" missing in
  {| valid := is_empty missing; missing := missing |}.

Definition validateSlackConfig (env : ProcessEnv) : Validation :=
  let missing := [] in
  let missing := push_if (String.eqb (SLACK_CONFIG_frontDesk env) "")
                   "SLACK_FRONT_DESK_CHANNEL_ID" missing in
  {| valid := is_empty missing; missing := missing |}.

(** The configuration the workflow sees in a process with environment
    [env]: the lists of [CLICKUP_STRUCTURE], the channel of [SLACK_CONFIG]
    and the two tokens. *)
Definition config_of_env (env : ProcessEnv) : Config :=
  {| lists := newLeads_lists (CLICKUP_STRUCTURE env);
     frontDeskChannel := SLACK_CONFIG_frontDesk env;
     CLICKUP_API_TOKEN := env "CLICKUP_API_TOKEN";
     SLACK_BOT_TOKEN := env "SLACK_BOT_TOKEN" |}.

(** ** The lead webhook ([api/webhooks/ghl-lead-action.ts]) *)

Record GHLCustomFields := mkGHLCustomFields {
  ghl_socialHandle : option string;
  ghl_condition : option string;
  ghl_specific_condition : option string;
  ghl_is_pregnant : option bool;
  ghl_birth_date : option string;
  ghl_lead_source : option string;
  ghl_emails_opened : option Z;
  ghl_emails_clicked : option Z;
  ghl_sms_replied : option bool;
  ghl_last_engagement : option string
}.

Record GHLContact := mkGHLContact {
  contact_id : string;
  contact_firstName : option string;
  contact_lastName : option string;
  contact_email : option string;
  contact_phone : option string;
  contact_tags : option (list string);
  contact_customFields : option GHLCustomFields
}.

Record GHLLeadWebhook := mkGHLLeadWebhook {
  hook_type : string;
  hook_contactId : string;
  hook_contact : GHLContact;
  hook_timestamp : string
}.

(** The bodies of a request that the handler is studied on.  [req.body] is
    not validated, so it need not be a [GHLLeadWebhook]: it can be nothing
    ([undefined] or [null]), or a value whose [contact] is [undefined] or
    [null] (a string, an object without that field), or an object of the
    declared shape.  Bodies whose fields hold values of other types than the
    declared ones are not covered. *)
Inductive RequestBody :=
| BodyAbsent
| BodyWithoutContact
| BodyPayload (payload : GHLLeadWebhook).

(** [contact.customFields || {}]. *)
Definition customFields_or_empty (o : option GHLCustomFields)
  : GHLCustomFields :=
  match o with
  | Some cf => cf
  | None => mkGHLCustomFields None None None None None None None None None None
  end.

(** [String.prototype.includes]. *)
Fixpoint includes (hay needle : string) : bool :=
  match hay with
  | EmptyString => String.prefix needle EmptyString
  | String _ rest => String.prefix needle hay || includes rest needle
  end.

(** [Set.prototype.has] on the set built from an array. *)
Definition has (set : list string) (x : string) : bool :=
  existsb (String.eqb x) set.

Definition determineLeadTemperature (emailsOpened emailsClicked : Z)
           (smsReplied : bool) : LeadTemperature :=
  if (2 <=? emailsClicked) || smsReplied then hot
  else if (2 <=? emailsOpened) || (1 <=? emailsClicked) then warm
  else cold.

(** A JSON value of a response body. *)
Inductive JsonValue :=
| JBool (b : bool)
| JString (s : string)
| JUndefined.

Definition json_of (o : option string) : JsonValue :=
  match o with
  | Some s => JString s
  | None => JUndefined
  end.

Record HttpResponse := mkHttpResponse {
  http_status : Z;
  http_json : list (string * JsonValue)
}.

Section Webhook.

(** [String.prototype.toLowerCase], and [s.replace(/\s+/g, '-')]. *)
Variable toLowerCase : string -> string.
Variable replace_whitespace : string -> string.

Definition determineLeadStage (tags : list string) : LeadStage :=
  let tagSet := map toLowerCase tags in
  if has tagSet "converted" || has tagSet "patient" then converted
  else if has tagSet "scheduled" then scheduled
  else if has tagSet "action-ready" || has tagSet "action ready"
  then action_ready
  else if has tagSet "engaged" then engaged
  else if has tagSet "contacted" then contacted
  else if has tagSet "lost" || has tagSet "not interested" then lost
  else stage_new.

Definition parseLeadSource (sourceString : string) : LeadSource :=
  let normalized := replace_whitespace (toLowerCase sourceString) in
  if includes normalized "facebook" then facebook_ad
  else if includes normalized "instagram" then instagram_dm
  else if includes normalized "website" then website_form
  else if includes normalized "pdf" then pdf_download
  else if includes normalized "referral" then referral
  else if includes normalized "walk" then walk_in
  else if includes normalized "event" then event
  else manual_entry.

Definition transformGHLContactToLead (payload : GHLLeadWebhook) : Lead :=
  let contact := hook_contact payload in
  let customFields := customFields_or_empty (contact_customFields contact) in
  let partialLead :=
    {| p_id := None;
       p_firstName := contact_firstName contact;
       p_lastName := contact_lastName contact;
       p_phone := contact_phone contact;
       p_email := contact_email contact;
       p_socialHandle := ghl_socialHandle customFields;
       p_tier := None;
       p_source := None;
       p_temperature := None;
       p_stage := None;
       p_condition := ghl_condition customFields;
       p_specificCondition := ghl_specific_condition customFields;
       p_isPregnant := ghl_is_pregnant customFields;
       p_birthDate := ghl_birth_date customFields |} in
  let tier := calculateLeadTier partialLead in
  let stage :=
    determineLeadStage
      (match contact_tags contact with Some t => t | None => [] end) in
  let temperature :=
    determineLeadTemperature
      (JS.or_zero (ghl_emails_opened customFields))
      (JS.or_zero (ghl_emails_clicked customFields))
      (match ghl_sms_replied customFields with Some b => b | None => false end)
  in
  let source :=
    parseLeadSource
      (if JS.truthy (ghl_lead_source customFields)
       then JS.interp (ghl_lead_source customFields) else "") in
  {| id := contact_id contact;
     ghlContactId := Some (contact_id contact);
     chiroHdLeadId := None;
     clickupTaskId := None;
     firstName := contact_firstName contact;
     lastName := contact_lastName contact;
     phone := contact_phone contact;
     email := contact_email contact;
     socialHandle := ghl_socialHandle customFields;
     tier := tier;
     source := source;
     temperature := temperature;
     stage := stage;
     condition := ghl_condition customFields;
     specificCondition := ghl_specific_condition customFields;
     isPregnant := ghl_is_pregnant customFields;
     birthDate := ghl_birth_date customFields;
     emailsOpened := ghl_emails_opened customFields;
     emailsClicked := ghl_emails_clicked customFields;
     smsReplied := ghl_sms_replied customFields;
     lastEngagement := ghl_last_engagement customFields;
     campaignName := None;
     createdAt := hook_timestamp payload;
     updatedAt := hook_timestamp payload;
     convertedAt := None;
     notes := None;
     tags := contact_tags contact |}.

Variable World : Type.
Variable toLocaleDateString : string -> string.
Variable tza : Z.
Variable cfg : Config.
Variable ext : External World.

(** The answer of the handler to the outcome of the workflow. *)
Definition respond (result : LeadToTaskResult) : HttpResponse :=
  if success result && taskCreated result then
    {| http_status := 200;
       http_json :=
         [ ("success", JBool true);
           ("message", JString "Lead processed and task created");
           ("taskId", json_of (taskId result));
           ("taskUrl", json_of (taskUrl result));
           ("slackNotified", JBool (slackNotified result)) ] |}
  else if success result && negb (taskCreated result) then
    {| http_status := 200;
       http_json :=
         [ ("success", JBool true);
           ("message",
            JString "Lead received but not ready for task creation");
           ("reason", json_of (error result)) ] |}
  else
    {| http_status := 500;
       http_json :=
         [ ("success", JBool false);
           ("error", json_of (error result)) ] |}.

(** The [TypeError] thrown on reading property [p] of [undefined] or
    [null]; its message is the engine's. *)
Variable TypeError_reading : string -> JSError.

(** The handler, on the method and the body of the request.  The body is
    taken as a [GHLLeadWebhook] without a check: reading
    [payload.contact.firstName] throws when the body or its contact is
    missing, and the [catch] answers. *)
Definition handler (method : string) (body : RequestBody)
  : M World HttpResponse :=
  if negb (String.eqb method "POST") then
    ret World {| http_status := 405;
                 http_json := [ ("error", JString "Method not allowed") ] |}
  else
    try_catch World
      (match body with
       | BodyAbsent => throw World (TypeError_reading "contact")
       | BodyWithoutContact => throw World (TypeError_reading "firstName")
       | BodyPayload payload =>
           let lead := transformGHLContactToLead payload in
           bind World
             (processLeadToTask toLocaleDateString tza cfg ext lead)
             (fun result => ret World (respond result))
       end)
      (fun error =>
         ret World {| http_status := 500;
                      http_json := [ ("success", JBool false);
                                     ("error", JString (message error)) ] |}).

End Webhook.

(** ** Patients ([core/types/patient.ts]) *)

Inductive PatientStatus :=
| patient_new | patient_active | patient_inactive | patient_former.

Inductive CareplanStatus :=
| careplan_not_started | careplan_active | careplan_completed
| careplan_paused.

Record Patient := mkPatient {
  pt_id : string;
  pt_chiroHdPatientId : string;
  pt_ghlContactId : option string;
  pt_firstName : string;
  pt_lastName : string;
  pt_email : option string;
  pt_phone : option string;
  pt_birthDate : option string;
  pt_status : PatientStatus;
  pt_careplanStatus : CareplanStatus;
  pt_visitCount : Z;
  pt_firstVisitDate : option string;
  pt_lastVisitDate : option string;
  pt_primaryCondition : option string;
  pt_conditions : option (list string);
  pt_isPregnant : option bool;
  pt_opa : option Z;
  pt_createdAt : string;
  pt_updatedAt : string;
  pt_inactiveSince : option string;
  pt_originalLeadSource : option string;
  pt_referredBy : option string;
  pt_tags : option (list string)
}.

Section Patients.

(** [new Date(s).getTime()]: [None] stands for [NaN], the time value of an
    invalid date. *)
Variable Date_parse : string -> option Z.

(** [isPatientInactive], with [Date.now()] made a parameter. *)
Definition isPatientInactive (now : Z) (patient : Patient)
           (inactiveDays : Z) : bool :=
  if negb (JS.truthy (pt_lastVisitDate patient)) then true
  else
    match Date_parse (JS.interp (pt_lastVisitDate patient)) with
    | None => false
    | Some lastVisit =>
        let daysSinceVisit := (now - lastVisit) / (1000 * 60 * 60 * 24) in
        inactiveDays <=? daysSinceVisit
    end.

(** [leadToPatient], with [new Date().toISOString()] made a parameter. *)
Definition leadToPatient (nowISO : string) (lead : Lead)
           (chiroHdPatientId : string) (firstVisitDate : string) : Patient :=
  {| pt_id := id lead;
     pt_chiroHdPatientId := chiroHdPatientId;
     pt_ghlContactId := ghlContactId lead;
     pt_firstName :=
       if JS.truthy (firstName lead) then JS.interp (firstName lead) else "";
     pt_lastName :=
       if JS.truthy (lastName lead) then JS.interp (lastName lead) else "";
     pt_email := email lead;
     pt_phone := phone lead;
     pt_birthDate := birthDate lead;
     pt_status := patient_new;
     pt_careplanStatus := careplan_not_started;
     pt_visitCount := 1;
     pt_firstVisitDate := Some firstVisitDate;
     pt_lastVisitDate := Some firstVisitDate;
     pt_primaryCondition :=
       JS.or_else (condition lead) (specificCondition lead);
     pt_conditions :=
       Some (if JS.truthy (condition lead)
             then [JS.interp (condition lead)] else []);
     pt_isPregnant := isPregnant lead;
     pt_opa := None;
     pt_createdAt := createdAt lead;
     pt_updatedAt := nowISO;
     pt_inactiveSince := None;
     pt_originalLeadSource := Some (LeadSource_to_string (source lead));
     pt_referredBy := None;
     pt_tags := Some (match tags lead with Some t => t | None => [] end) |}.

End Patients.

(** ** The logger ([core/utils/logger.ts]) *)

Inductive LogLevel := ERROR | WARN | INFO | DEBUG.

Definition LogLevel_to_string (l : LogLevel) : string :=
  match l with
  | ERROR => "error"
  | WARN => "warn"
  | INFO => "info"
  | DEBUG => "debug"
  end.

(** [Array.prototype.indexOf]: [-1] when the element is absent. *)
Fixpoint indexOf (x : string) (l : list string) : Z :=
  match l with
  | [] => -1
  | y :: rest =>
      if String.eqb y x then 0
      else let i := indexOf x rest in if i <? 0 then -1 else i + 1
  end.

(** The constructor: [process.env.LOG_LEVEL || LogLevel.INFO], taken as a
    log level without a check. *)
Definition Logger_logLevel (env : ProcessEnv) : string :=
  if JS.truthy (env "LOG_LEVEL") then JS.interp (env "LOG_LEVEL")
  else LogLevel_to_string INFO.

Definition shouldLog (logLevel : string) (level : LogLevel) : bool :=
  let levels := map LogLevel_to_string [ERROR; WARN; INFO; DEBUG] in
  indexOf (LogLevel_to_string level) levels <=? indexOf logLevel levels.

(** ** Further sample data *)

Module Fixture.

(** Lower case on the letters A-Z. *)
Definition lower_ascii (c : ascii) : ascii :=
  let n := nat_of_ascii c in
  if (Nat.leb 65 n && Nat.leb n 90)%bool then ascii_of_nat (n + 32) else c.

Fixpoint toLowerCase (s : string) : string :=
  match s with
  | EmptyString => EmptyString
  | String c rest => String (lower_ascii c) (toLowerCase rest)
  end.

Definition is_space (c : ascii) : bool :=
  let n := nat_of_ascii c in
  (Nat.eqb n 32 || (Nat.leb 9 n && Nat.leb n 13))%bool.

(** Runs of blanks become one hyphen. *)
Fixpoint replace_whitespace_from (in_run : bool) (s : string) : string :=
  match s with
  | EmptyString => EmptyString
  | String c rest =>
      if is_space c
      then if in_run then replace_whitespace_from true rest
           else String "-" (replace_whitespace_from true rest)
      else String c (replace_whitespace_from false rest)
  end.

Definition replace_whitespace (s : string) : string :=
  replace_whitespace_from false s.

Definition env_full : ProcessEnv :=
  fun key =>
    if String.eqb key "CLICKUP_WORKSPACE_ID" then Some "9011"
    else if String.eqb key "CLICKUP_FRONT_DESK_SPACE_ID" then Some "9012"
    else if String.eqb key "CLICKUP_NEW_LEADS_FOLDER_ID" then Some "9013"
    else if String.eqb key "CLICKUP_TIER4_LIST_ID" then Some "901100000004"
    else if String.eqb key "CLICKUP_TIER3_LIST_ID" then Some "901100000003"
    else if String.eqb key "CLICKUP_TIER2_LIST_ID" then Some "901100000002"
    else if String.eqb key "CLICKUP_TIER1_LIST_ID" then Some "901100000001"
    else if String.eqb key "SLACK_FRONT_DESK_CHANNEL_ID"
    then Some "C0FRONTDESK"
    else if String.eqb key "CLICKUP_API_TOKEN" then Some "pk_test"
    else if String.eqb key "SLACK_BOT_TOKEN" then Some "xoxb-test"
    else None.

Definition env_verbose : ProcessEnv :=
  fun key => if String.eqb key "LOG_LEVEL" then Some "verbose" else None.

(** No channel, no messaging token. *)
Definition no_channel : Config :=
  {| lists := lists Sample.configured;
     frontDeskChannel := "";
     CLICKUP_API_TOKEN := Some "pk_test";
     SLACK_BOT_TOKEN := None |}.

(** A channel, but no messaging token. *)
Definition no_slack_token : Config :=
  {| lists := lists Sample.configured;
     frontDeskChannel := "C0FRONTDESK";
     CLICKUP_API_TOKEN := Some "pk_test";
     SLACK_BOT_TOKEN := None |}.

Definition no_clickup_token : Config :=
  {| lists := lists Sample.configured;
     frontDeskChannel := "C0FRONTDESK";
     CLICKUP_API_TOKEN := None;
     SLACK_BOT_TOKEN := Some "xoxb-test" |}.

(** The task store refuses every request. *)
Definition store_down : External nat :=
  {| clock := fun _ => Sample.at_14h;
     createTask :=
       fun _ w => (inl (mkError "Request failed with status code 401"), S w);
     notifyTaskCreated := fun _ _ _ _ w => (inr tt, S w);
     sleep := fun _ w => w |}.

Definition ghl_fields : GHLCustomFields :=
  {| ghl_socialHandle := None;
     ghl_condition := Some "Neck pain and headaches";
     ghl_specific_condition := None;
     ghl_is_pregnant := None;
     ghl_birth_date := None;
     ghl_lead_source := Some "Facebook Lead Ad";
     ghl_emails_opened := Some 2;
     ghl_emails_clicked := Some 1;
     ghl_sms_replied := None;
     ghl_last_engagement := None |}.

Definition ghl_payload : GHLLeadWebhook :=
  {| hook_type := "ContactTagUpdate";
     hook_contactId := "ghl-1";
     hook_contact :=
       {| contact_id := "ghl-1";
          contact_firstName := Some "Michael";
          contact_lastName := Some "Rodriguez";
          contact_email := Some "michael.r@example.com";
          contact_phone := Some "+15559876543";
          contact_tags := Some ["Engaged"; "Newsletter"];
          contact_customFields := Some ghl_fields |};
     hook_timestamp := "2025-12-17T14:00:00.000Z" |}.

Definition TypeError_reading (p : string) : JSError :=
  mkError ("Cannot read properties of undefined (reading '" ++ p ++ "')").

(** Time values of two dates, and nothing for any other text. *)
Definition Date_parse (s : string) : option Z :=
  if String.eqb s "2025-11-01T00:00:00.000Z" then Some 1761955200000
  else if String.eqb s "2025-12-17T14:00:00.000Z" then Some 1765980000000
  else None.

Definition patient_of_michael : Patient :=
  leadToPatient "2025-12-17T14:00:00.000Z" Sample.michael "chd-77"
    "2025-11-01T00:00:00.000Z".

(** [l] with other counters and another stage. *)
Definition with_engagement (l : Lead) (opened clicked : option Z)
           (s : LeadStage) : Lead :=
  {| id := id l; ghlContactId := ghlContactId l;
     chiroHdLeadId := chiroHdLeadId l; clickupTaskId := clickupTaskId l;
     firstName := firstName l; lastName := lastName l;
     phone := phone l; email := email l; socialHandle := socialHandle l;
     tier := tier l; source := source l; temperature := temperature l;
     stage := s;
     condition := condition l; specificCondition := specificCondition l;
     isPregnant := isPregnant l; birthDate := birthDate l;
     emailsOpened := opened; emailsClicked := clicked;
     smsReplied := smsReplied l; lastEngagement := lastEngagement l;
     campaignName := campaignName l;
     createdAt := createdAt l; updatedAt := updatedAt l;
     convertedAt := convertedAt l; notes := notes l; tags := tags l |}.

End Fixture.

(** ** The ways a run of the workflow can end *)

(** The outcome for a lead that the gate refuses. *)
Definition not_ready : LeadToTaskResult :=
  {| success := true;
     taskCreated := false;
     taskId := None;
     taskUrl := None;
     slackNotified := false;
     error := Some "Lead not yet at action stage" |}.

(** The outcome once the task exists, notified or not. *)
Definition task_created (created : ClickUpTaskResponse) (notified : bool)
  : LeadToTaskResult :=
  {| success := true;
     taskCreated := true;
     taskId := Some (resp_id created);
     taskUrl := Some (resp_url created);
     slackNotified := notified;
     error := None |}.

Definition is_delay (e : Event) : bool :=
  match e with EvDelay _ => true | _ => false end.

Definition is_create (e : Event) : bool :=
  match e with EvCreateTask _ _ => true | _ => false end.

Definition is_notify (e : Event) : bool :=
  match e with EvNotify _ _ _ _ _ => true | _ => false end.

Section RunCases.

Variable World : Type.
Variable toLocaleDateString : string -> string.
Variable tza : Z.
Variable cfg : Config.
Variable ext : External World.

(** The task that a run for [lead] started in world [w] sends to the
    store. *)
Definition task_for (lead : Lead) (w : World) : ClickUpTask :=
  buildTaskFromLead toLocaleDateString tza (clock ext w) lead
    (getListIdForTier cfg (tier lead)) getFrontDeskClickUpIds.

(** The result of a run, by the branch of the code that ends it: the value
    returned, the world left behind and the calls made. *)
Inductive RunCase (lead : Lead) (w : World)
  : (JSError + LeadToTaskResult) * World * list Event -> Prop :=
| Run_not_ready :
    isActionReady lead = false ->
    RunCase lead w (inr not_ready, w, [])
| Run_no_list :
    isActionReady lead = true ->
    getListIdForTier cfg (tier lead) = "" ->
    RunCase lead w
      (inr (failed ("No ClickUp list configured for tier " ++
                    JS.number_to_string (tier lead))), w, [])
| Run_no_store_token :
    isActionReady lead = true ->
    getListIdForTier cfg (tier lead) <> "" ->
    JS.truthy (CLICKUP_API_TOKEN cfg) = false ->
    RunCase lead w
      (inr (failed "CLICKUP_API_TOKEN must be set in environment variables"),
       w, [])
| Run_store_error : forall e w1,
    isActionReady lead = true ->
    getListIdForTier cfg (tier lead) <> "" ->
    JS.truthy (CLICKUP_API_TOKEN cfg) = true ->
    createTask ext (task_for lead w) w = (inl e, w1) ->
    RunCase lead w
      (inr (failed (message e)), w1,
       [EvCreateTask (task_for lead w) (inl e)])
| Run_notify_skipped : forall created w1,
    isActionReady lead = true ->
    getListIdForTier cfg (tier lead) <> "" ->
    JS.truthy (CLICKUP_API_TOKEN cfg) = true ->
    createTask ext (task_for lead w) w = (inr created, w1) ->
    getFrontDeskChannelId cfg = "" ->
    RunCase lead w
      (inr (task_created created false), w1,
       [EvCreateTask (task_for lead w) (inr created)])
| Run_no_messaging_token : forall created w1,
    isActionReady lead = true ->
    getListIdForTier cfg (tier lead) <> "" ->
    JS.truthy (CLICKUP_API_TOKEN cfg) = true ->
    createTask ext (task_for lead w) w = (inr created, w1) ->
    getFrontDeskChannelId cfg <> "" ->
    JS.truthy (SLACK_BOT_TOKEN cfg) = false ->
    RunCase lead w
      (inr (failed "SLACK_BOT_TOKEN must be set in environment variables"),
       w1, [EvCreateTask (task_for lead w) (inr created)])
| Run_notify_failed : forall created w1 e w2,
    isActionReady lead = true ->
    getListIdForTier cfg (tier lead) <> "" ->
    JS.truthy (CLICKUP_API_TOKEN cfg) = true ->
    createTask ext (task_for lead w) w = (inr created, w1) ->
    getFrontDeskChannelId cfg <> "" ->
    JS.truthy (SLACK_BOT_TOKEN cfg) = true ->
    notifyTaskCreated ext lead created getFrontDeskSlackIds
      (getFrontDeskChannelId cfg) w1 = (inl e, w2) ->
    RunCase lead w
      (inr (failed (message e)), w2,
       [EvCreateTask (task_for lead w) (inr created);
        EvNotify lead created getFrontDeskSlackIds
          (getFrontDeskChannelId cfg) (inl e)])
| Run_notified : forall created w1 w2,
    isActionReady lead = true ->
    getListIdForTier cfg (tier lead) <> "" ->
    JS.truthy (CLICKUP_API_TOKEN cfg) = true ->
    createTask ext (task_for lead w) w = (inr created, w1) ->
    getFrontDeskChannelId cfg <> "" ->
    JS.truthy (SLACK_BOT_TOKEN cfg) = true ->
    notifyTaskCreated ext lead created getFrontDeskSlackIds
      (getFrontDeskChannelId cfg) w1 = (inr tt, w2) ->
    RunCase lead w
      (inr (task_created created true), w2,
       [EvCreateTask (task_for lead w) (inr created);
        EvNotify lead created getFrontDeskSlackIds
          (getFrontDeskChannelId cfg) (inr tt)]).

End RunCases.

Arguments task_for {World}.
Arguments RunCase {World}.

(** ** The host time zone

    The local-time methods of [Date] use the time zone of the host, whose
    offset from UTC changes at daylight-saving transitions.  [LocalTZA t
    isUTC] of the language standard is that offset in milliseconds: at the
    instant [t] when [isUTC], and at the local time [t] otherwise (a local
    time skipped by a transition takes the offset before it, a repeated one
    the offset of its first occurrence).  [JSDate] above is the instance in
    which the offset never changes. *)

Module HostZone.

Definition Zone := Z -> bool -> Z.

Section InZone.

Variable LocalTZA : Zone.

Definition LocalTime (t : Z) : Z := t + LocalTZA t true.
Definition UTC (t : Z) : Z := t - LocalTZA t false.

Definition getTime (d : Z) : Z := d.
Definition getHours (d : Z) : Z := JSDate.HourFromTime (LocalTime d).
Definition getDate (d : Z) : Z := JSDate.DateFromTime (LocalTime d).

Definition setHours (d : Z) (hour : Z) (min sec ms : option Z) : Z :=
  let t := LocalTime d in
  let m := JSDate.opt_default min (JSDate.MinFromTime t) in
  let s := JSDate.opt_default sec (JSDate.SecFromTime t) in
  let milli := JSDate.opt_default ms (JSDate.msFromTime t) in
  UTC (JSDate.MakeDate (JSDate.Day t) (JSDate.MakeTime hour m s milli)).

Definition setDate (d : Z) (date : Z) : Z :=
  let t := LocalTime d in
  UTC (JSDate.MakeDate
         (JSDate.MakeDay (JSDate.YearFromTime t) (JSDate.MonthFromTime t)
            date)
         (JSDate.TimeWithinDay t)).

(** [calculateDueDate] in the host zone, with the reading [now] of the
    clock made a parameter. *)
Definition calculateDueDate (now : Z) (tier : LeadTier) : Z :=
  let now :=
    match tier with
    | 4 => setHours now (getHours now + 2) None None None
    | 3 =>
        if getHours now <? 15
        then setHours now 17 (Some 0) (Some 0) (Some 0)
        else
          let now := setDate now (getDate now + 1) in
          setHours now 17 (Some 0) (Some 0) (Some 0)
    | 2 =>
        let now := setDate now (getDate now + 1) in
        setHours now 17 (Some 0) (Some 0) (Some 0)
    | 1 =>
        let now := setDate now (getDate now + 2) in
        setHours now 17 (Some 0) (Some 0) (Some 0)
    | _ => now
    end in
  getTime now.

End InZone.

(** A zone whose offset never changes. *)
Definition fixed (tza : Z) : Zone := fun _ _ => tza.

(** New York in 2025: five hours behind UTC, four from 9 March 07:00 UTC
    (local 02:00 becomes 03:00) to 2 November 06:00 UTC (local 02:00
    becomes 01:00). *)
Definition America_New_York_2025 : Zone :=
  fun t isUTC =>
    if isUTC then
      if t <? 1741503600000 then -18000000
      else if t <? 1762063200000 then -14400000
      else -18000000
    else
      if t <? 1741489200000 then -18000000
      else if t <? 1762048800000 then -14400000
      else -18000000.

End HostZone.

(** The local time [x] exists in the zone: the instant it denotes reads
    [x] again on the local clock. *)
Definition local_exists (zone : HostZone.Zone) (x : Z) : Prop :=
  HostZone.LocalTime zone (HostZone.UTC zone x) = x.

(** The date set [k] days after the local time [L] is on the [k]-th
    calendar day after the day of [L]. *)
Definition lands_on_day (zone : HostZone.Zone) (L k : Z) : Prop :=
  JSDate.Day
    (HostZone.LocalTime zone
       (HostZone.UTC zone (L + k * JSDate.msPerDay)))
  = JSDate.Day L + k.

(** 2025-03-09T06:30:00Z, 01:30 in New York, half an hour before the
    clocks go forward; 2025-11-01T04:30:00Z, 00:30 in New York on the eve
    of the clocks going back; 2025-11-02T05:30:00Z, 01:30 in New York, half
    an hour before they do; 2025-06-10T18:00:00Z and 20:00:00Z, 14:00 and
    16:00 in New York. *)
Definition before_spring_forward : Z := 1741501800000.
Definition eve_of_fall_back : Z := 1761971400000.
Definition before_fall_back : Z := 1762061400000.
Definition june_14h_local : Z := 1749578400000.
Definition june_16h_local : Z := 1749585600000.

(** ** Orders on leads, and the day of the week *)

(** [l'] knows at least what [l] knows: every field that counts for the
    tier and is present in [l] is present in [l']. *)
Definition richer (l l' : PartialLead) : Prop :=
  (present (p_firstName l) = true -> present (p_firstName l') = true) /\
  (present (p_lastName l) = true -> present (p_lastName l') = true) /\
  (present (p_phone l) = true -> present (p_phone l') = true) /\
  (present (p_email l) = true -> present (p_email l') = true) /\
  (present (p_condition l) = true -> present (p_condition l') = true) /\
  (present (p_specificCondition l) = true ->
   present (p_specificCondition l') = true) /\
  (defined (p_isPregnant l) = true -> defined (p_isPregnant l') = true) /\
  (present (p_birthDate l) = true -> present (p_birthDate l') = true).

(** [WeekDay] of the language standard: 0 is Sunday, 6 is Saturday. *)
Definition WeekDay (t : Z) : Z := (JSDate.Day t + 4) mod 7.

(** * Properties *)

(** ** Calendar arithmetic *)

Module JSDateFacts.
Import JSDate.

Ltac split_ifs :=
  repeat match goal with
         | |- context [if ?c then _ else _] => destruct c
         end.

Lemma MonthFromTime_range t : 0 <= MonthFromTime t <= 11.
Proof. unfold MonthFromTime. split_ifs; lia. Qed.

(** [YearFromTime] is the year whose days contain [t]. *)
Lemma YearFromTime_spec t :
  DayFromYear (YearFromTime t) <= Day t < DayFromYear (YearFromTime t + 1).
Proof.
  unfold YearFromTime. generalize (Day t). intro d.
  destruct (Z.ltb_spec d (DayFromYear (1970 + d * 400 / 146097))) as [L | L].
  - unfold DayFromYear in *. Z.div_mod_to_equations. lia.
  - destruct (Z.leb_spec (DayFromYear (1970 + d * 400 / 146097 + 1)) d)
      as [U | U];
      unfold DayFromYear in *; Z.div_mod_to_equations; lia.
Qed.

(** Moving the day of the month moves the day number by as much, across
    the ends of months and years. *)
Lemma MakeDay_shift t k :
  MakeDay (YearFromTime t) (MonthFromTime t) (DateFromTime t + k) = Day t + k.
Proof.
  pose proof (MonthFromTime_range t) as Hm.
  unfold MakeDay, DateFromTime, InLeapYear, DayWithinYear.
  rewrite (Z.div_small (MonthFromTime t) 12) by lia.
  rewrite (Z.mod_small (MonthFromTime t) 12) by lia.
  rewrite Z.add_0_r. lia.
Qed.

Lemma day_split t : t = Day t * msPerDay + TimeWithinDay t.
Proof.
  unfold Day, TimeWithinDay, msPerDay.
  pose proof (Z.div_mod t 86400000). lia.
Qed.

Lemma Day_add t k : Day (t + k * msPerDay) = Day t + k.
Proof. unfold Day, msPerDay. rewrite Z.div_add by lia. reflexivity. Qed.

Lemma HourFromTime_range t : 0 <= HourFromTime t < 24.
Proof. unfold HourFromTime. apply Z.mod_pos_bound. lia. Qed.

(** The hour is the hour within the day. *)
Lemma hour_bounds t :
  HourFromTime t * msPerHour <= TimeWithinDay t
  < (HourFromTime t + 1) * msPerHour.
Proof.
  unfold HourFromTime, TimeWithinDay, msPerHour, msPerDay.
  Z.div_mod_to_equations. lia.
Qed.

Section Zone.
Variable tza : Z.

Lemma setDate_getDate d k :
  setDate tza d (getDate tza d + k) = d + k * msPerDay.
Proof.
  unfold setDate, getDate, UTC, MakeDate.
  rewrite MakeDay_shift.
  pose proof (day_split (LocalTime tza d)) as E.
  unfold LocalTime in *. lia.
Qed.

Lemma setHours_full d h :
  setHours tza d h (Some 0) (Some 0) (Some 0)
  = UTC tza (MakeDate (Day (LocalTime tza d)) (MakeTime h 0 0 0)).
Proof. reflexivity. Qed.

Lemma setHours_getHours d k :
  setHours tza d (getHours tza d + k) None None None = d + k * msPerHour.
Proof.
  unfold setHours, getHours, UTC, MakeDate, MakeTime, opt_default,
    HourFromTime, MinFromTime, SecFromTime, msFromTime, Day, LocalTime,
    msPerDay, msPerHour, msPerMinute, msPerSecond.
  remember (d + tza) as t eqn:Et.
  Z.div_mod_to_equations. lia.
Qed.

Lemma LocalTime_UTC t : LocalTime tza (UTC tza t) = t.
Proof. unfold LocalTime, UTC. lia. Qed.

Lemma LocalTime_add d k : LocalTime tza (d + k) = LocalTime tza d + k.
Proof. unfold LocalTime. lia. Qed.

End Zone.

End JSDateFacts.

(** ** Switches on the tier *)

(** A tier outside the four declared values falls to the [default] branch. *)
Lemma tier_switch_default {A : Type} (t : LeadTier) (a4 a3 a2 a1 dflt : A) :
  t <> 4 -> t <> 3 -> t <> 2 -> t <> 1 ->
  match t with 4 => a4 | 3 => a3 | 2 => a2 | 1 => a1 | _ => dflt end = dflt.
Proof.
  intros H4 H3 H2 H1.
  destruct t as [ | p | p ]; try reflexivity.
  do 3 (try (destruct p as [ p | p | ]; try reflexivity)); lia.
Qed.

(** ** Task builder *)

Section TaskBuilderFacts.

Variable toLocaleDateString : string -> string.
Variable tza : Z.

Local Abbreviation due := (calculateDueDate tza).
Local Abbreviation local := (JSDate.LocalTime tza).

Lemma due_tier4 t : due t 4 = t + 2 * JSDate.msPerHour.
Proof.
  unfold calculateDueDate, JSDate.getTime.
  apply JSDateFacts.setHours_getHours.
Qed.

(** [setDate(getDate() + k)] followed by [setHours(17, 0, 0, 0)]. *)
Lemma shift_then_17 t k :
  local (JSDate.setHours tza
           (JSDate.setDate tza t (JSDate.getDate tza t + k))
           17 (Some 0) (Some 0) (Some 0))
  = at_17 (JSDate.Day (local t) + k).
Proof.
  rewrite JSDateFacts.setDate_getDate, JSDateFacts.setHours_full.
  rewrite JSDateFacts.LocalTime_UTC, JSDateFacts.LocalTime_add.
  rewrite JSDateFacts.Day_add. reflexivity.
Qed.

Lemma today_17 t :
  local (JSDate.setHours tza t 17 (Some 0) (Some 0) (Some 0))
  = at_17 (JSDate.Day (local t)).
Proof.
  rewrite JSDateFacts.setHours_full, JSDateFacts.LocalTime_UTC.
  reflexivity.
Qed.

Lemma due_tier3 t :
  local (due t 3)
  = at_17 (JSDate.Day (local t) +
           (if JSDate.getHours tza t <? 15 then 0 else 1)).
Proof.
  unfold calculateDueDate, JSDate.getTime.
  destruct (JSDate.getHours tza t <? 15).
  - rewrite today_17, Z.add_0_r. reflexivity.
  - apply shift_then_17.
Qed.

Lemma due_tier2 t : local (due t 2) = at_17 (JSDate.Day (local t) + 1).
Proof. apply shift_then_17. Qed.

Lemma due_tier1 t : local (due t 1) = at_17 (JSDate.Day (local t) + 2).
Proof. apply shift_then_17. Qed.

Lemma due_default t tier :
  tier <> 4 -> tier <> 3 -> tier <> 2 -> tier <> 1 -> due t tier = t.
Proof.
  intros. unfold calculateDueDate, JSDate.getTime.
  apply tier_switch_default; assumption.
Qed.

(** The local time within day [day]. *)
Lemma local_in_day t :
  JSDate.Day (local t) * JSDate.msPerDay <= local t
  < (JSDate.Day (local t) + 1) * JSDate.msPerDay.
Proof.
  unfold JSDate.Day, JSDate.msPerDay. Z.div_mod_to_equations. lia.
Qed.

Lemma at_17_value day : at_17 day = day * 86400000 + 61200000.
Proof.
  unfold at_17, JSDate.MakeDate, JSDate.MakeTime, JSDate.msPerDay,
    JSDate.msPerHour, JSDate.msPerMinute, JSDate.msPerSecond. lia.
Qed.

Lemma local_value x : local x = x + tza.
Proof. reflexivity. Qed.

Lemma after_17_next_days t r k :
  1 <= k -> local r = at_17 (JSDate.Day (local t) + k) -> t < r.
Proof.
  intros Hk E. pose proof (local_in_day t) as D.
  rewrite at_17_value in E. rewrite !local_value in *.
  unfold JSDate.msPerDay in D. lia.
Qed.

Lemma before_15_then_17 t r :
  JSDate.getHours tza t < 15 ->
  local r = at_17 (JSDate.Day (local t)) -> t < r.
Proof.
  intros H E.
  pose proof (JSDateFacts.hour_bounds (local t)) as B.
  pose proof (JSDateFacts.day_split (local t)) as S.
  unfold JSDate.getHours in H.
  rewrite at_17_value in E. rewrite !local_value in *.
  unfold JSDate.msPerDay, JSDate.msPerHour in *. lia.
Qed.

(** On the four declared tiers the due date is after the clock reading. *)
Lemma due_after_now t tier :
  tier = 4 \/ tier = 3 \/ tier = 2 \/ tier = 1 -> t < due t tier.
Proof.
  intros [-> | [-> | [-> | ->]]].
  - rewrite due_tier4. unfold JSDate.msPerHour. lia.
  - pose proof (due_tier3 t) as E.
    destruct (Z.ltb_spec (JSDate.getHours tza t) 15) as [H | H].
    + rewrite Z.add_0_r in E. eapply before_15_then_17; eassumption.
    + eapply after_17_next_days; [ | exact E ]. lia.
  - eapply after_17_next_days; [ | apply due_tier2 ]. lia.
  - eapply after_17_next_days; [ | apply due_tier1 ]. lia.
Qed.

(** The fields of the local time [at_17 day]. *)
Lemma at_17_fields day :
  JSDate.Day (at_17 day) = day /\
  JSDate.HourFromTime (at_17 day) = 17 /\
  JSDate.MinFromTime (at_17 day) = 0 /\
  JSDate.SecFromTime (at_17 day) = 0 /\
  JSDate.msFromTime (at_17 day) = 0.
Proof.
  rewrite at_17_value.
  unfold JSDate.Day, JSDate.HourFromTime, JSDate.MinFromTime,
    JSDate.SecFromTime, JSDate.msFromTime, JSDate.msPerDay,
    JSDate.msPerHour, JSDate.msPerMinute, JSDate.msPerSecond.
  repeat split; Z.div_mod_to_equations; lia.
Qed.

(** C5: the priority of a task is urgent for tier 4, high for tier 3,
    normal for tier 2 and low for tier 1, and normal for every other
    tier value. *)
Theorem C5_priority_mapping :
  calculateTaskPriority 4 = urgent /\
  calculateTaskPriority 3 = high /\
  calculateTaskPriority 2 = normal /\
  calculateTaskPriority 1 = low /\
  forall tier : LeadTier,
    tier <> 4 -> tier <> 3 -> tier <> 2 -> tier <> 1 ->
    calculateTaskPriority tier = normal.
Proof.
  repeat split; intros; unfold calculateTaskPriority.
  apply tier_switch_default; assumption.
Qed.


Lemma truthy_Some s : s <> "" -> JS.truthy (Some s) = true.
Proof.
  intro H. simpl. destruct (String.eqb_spec s ""); [ contradiction | ].
  reflexivity.
Qed.

Lemma push_if_inside guard line (before : list string) x after :
  push_if guard line (before ++ x :: after)
  = (before ++ x :: push_if guard line after)%list.
Proof.
  unfold push_if, push. destruct guard; [ | reflexivity ].
  rewrite <- app_assoc. reflexivity.
Qed.

Lemma push_if_true line (parts : list string) :
  push_if true line parts = (parts ++ [line])%list.
Proof. reflexivity. Qed.

(** C10: when a lead has both a general and a detailed condition, the
    custom field [condition] of the task holds the general one, and the
    condition line of the description holds the detailed one. *)
Theorem C10_condition_precedence
        (now : Z) (lead : Lead) (listId : string) (assignees : list string)
        (general detailed : string) :
  condition lead = Some general -> general <> "" ->
  specificCondition lead = Some detailed -> detailed <> "" ->
  let task := buildTaskFromLead toLocaleDateString tza now lead
                                listId assignees in
  (exists cf, customFields task = Some cf /\
              cf_condition cf = Some general) /\
  (exists before after,
      description task
      = JS.join (String "010" "")
                (before ++ condition_line detailed :: after)%list /\
      generateTaskDescription_parts toLocaleDateString lead
      = (before ++ condition_line detailed :: after)%list /\
      (List.length before <= 3)%nat).
Proof.
  intros Hc Hc' Hd Hd'. simpl. split.
  - eexists. split; [ reflexivity | ]. simpl.
    rewrite Hc. unfold JS.or_else. rewrite truthy_Some by assumption.
    reflexivity.
  - unfold generateTaskDescription, generateTaskDescription_parts.
    rewrite Hc, Hd.
    replace (JS.truthy (Some general) || JS.truthy (Some detailed))
      with true by (rewrite !truthy_Some by assumption; reflexivity).
    replace (JS.or_else (Some detailed) (Some general))
      with (Some detailed)
      by (unfold JS.or_else; rewrite truthy_Some by assumption; reflexivity).
    simpl JS.interp. fold (condition_line detailed).
    rewrite !push_if_true, <- app_assoc. cbn [app].
    rewrite !push_if_inside.
    eexists. eexists. split; [ reflexivity | ].
    split; [ reflexivity | ].
    unfold push_if, push.
    destruct (JS.truthy (phone lead)), (JS.truthy (email lead)),
      (JS.truthy (socialHandle lead)); simpl; lia.
Qed.

End TaskBuilderFacts.

(** ** Tier classifier and readiness gate *)

(** C3: the classifier answers by the ladder, top down, first match wins:
    4 on the tier-4 predicate, else 3 on the tier-3 predicate, else 2 with
    phone and email, else 1; the answer is one of the four tiers, and a lead
    that satisfies both the tier-4 and the tier-3 predicate gets 4. *)
Theorem C3_tier_ladder (lead : PartialLead) :
  calculateLeadTier lead = first_match ladder lead 1 /\
  calculateLeadTier lead
  = (if tier4_predicate lead then 4
     else if tier3_predicate lead then 3
     else if tier2_predicate lead then 2
     else 1) /\
  (calculateLeadTier lead = 4 \/ calculateLeadTier lead = 3 \/
   calculateLeadTier lead = 2 \/ calculateLeadTier lead = 1) /\
  (tier4_predicate lead = true -> tier3_predicate lead = true ->
   calculateLeadTier lead = 4).
Proof.
  assert (E : calculateLeadTier lead
              = if tier4_predicate lead then 4
                else if tier3_predicate lead then 3
                else if tier2_predicate lead then 2
                else 1) by reflexivity.
  split; [ exact E | ].
  split; [ exact E | ].
  rewrite E.
  split.
  - destruct (tier4_predicate lead), (tier3_predicate lead),
      (tier2_predicate lead); auto.
  - intros H4 _. rewrite H4. reflexivity.
Qed.

Lemma or_zero_at_least (o : option Z) (k : Z) :
  1 <= k -> (k <=? JS.or_zero o) = at_least o k.
Proof.
  intro Hk. destruct o as [ n | ]; simpl.
  - destruct (Z.eqb_spec n 0) as [ -> | ]; [ | reflexivity ].
    reflexivity.
  - apply Z.leb_gt. lia.
Qed.

(** C4: the gate answers by the rule of the lead's tier: tier 4, stage
    engaged or action-ready; tier 3, two opens and one click; tier 2, three
    opens or one click; tier 1, stage action-ready; any other tier, not
    ready. *)
Theorem C4_readiness_by_tier (lead : Lead) :
  isActionReady lead = readiness_rule lead /\
  (tier lead <> 4 -> tier lead <> 3 -> tier lead <> 2 -> tier lead <> 1 ->
   isActionReady lead = false).
Proof.
  assert (D : tier lead <> 4 -> tier lead <> 3 -> tier lead <> 2 ->
              tier lead <> 1 -> isActionReady lead = false).
  { intros. unfold isActionReady. apply tier_switch_default; assumption. }
  split; [ | exact D ].
  unfold readiness_rule, stage_in, existsb.
  destruct (Z.eqb_spec (tier lead) 4) as [ E | N4 ].
  { unfold isActionReady. rewrite E. rewrite orb_false_r. reflexivity. }
  destruct (Z.eqb_spec (tier lead) 3) as [ E | N3 ].
  { unfold isActionReady. rewrite E.
    rewrite !or_zero_at_least by lia. reflexivity. }
  destruct (Z.eqb_spec (tier lead) 2) as [ E | N2 ].
  { unfold isActionReady. rewrite E.
    rewrite !or_zero_at_least by lia. reflexivity. }
  destruct (Z.eqb_spec (tier lead) 1) as [ E | N1 ].
  { unfold isActionReady. rewrite E. rewrite orb_false_r. reflexivity. }
  apply D; assumption.
Qed.

(** ** The workflow *)

Section WorkflowFacts.

Variable World : Type.
Variable toLocaleDateString : string -> string.
Variable tza : Z.
Variable cfg : Config.
Variable ext : External World.

Local Abbreviation run := (processLeadToTask toLocaleDateString tza cfg ext).
Local Abbreviation batch :=
  (processMultipleLeads toLocaleDateString tza cfg ext).
Local Abbreviation batch_loop :=
  (processMultipleLeads_loop toLocaleDateString tza cfg ext).
Local Abbreviation Batch := (BatchRun toLocaleDateString tza cfg ext).

Ltac unfold_run :=
  cbv beta iota zeta delta
    [processLeadToTask try_catch processLeadToTask_try bind ret throw now
     getClickUpClient getSlackClient clickup_createTask
     slack_notifyTaskCreated outcome events final negb fst snd].

(** The [catch] block turns every thrown error into an outcome. *)
Lemma processLeadToTask_returns (lead : Lead) (w : World) :
  exists out w1 ev, run lead w = (inr out, w1, ev).
Proof.
  unfold processLeadToTask, try_catch.
  destruct (processLeadToTask_try toLocaleDateString tza cfg ext lead w)
    as [[[e | out] w1] ev]; simpl; eauto.
Qed.

(** C7 (amended): a lead that the gate refuses gives the outcome
    success, no task created, not notified, error text
    "Lead not yet at action stage"; the world is left as it was and no
    call is made. *)
Theorem C7_not_ready_is_noop (lead : Lead) (w : World) :
  isActionReady lead = false ->
  run lead w
  = (inr {| success := true;
            taskCreated := false;
            taskId := None;
            taskUrl := None;
            slackNotified := false;
            error := Some "Lead not yet at action stage" |},
     w, []).
Proof.
  intro H. unfold_run. rewrite H. unfold_run. reflexivity.
Qed.

(** C8 (amended): a ready lead whose tier has no list configured gives the
    outcome failure, no task created, error text
    "No ClickUp list configured for tier N"; no call is made, so the task
    store is never asked to create. *)
Theorem C8_no_list_configured (lead : Lead) (w : World) :
  isActionReady lead = true ->
  getListIdForTier cfg (tier lead) = "" ->
  run lead w
  = (inr (failed ("No ClickUp list configured for tier " ++
                  JS.number_to_string (tier lead))),
     w, []).
Proof.
  intros H L. unfold_run. rewrite H, L. unfold_run. reflexivity.
Qed.

(** C1: for a ready lead, when the task store created the task and the
    notification call that followed failed, the outcome is failure, no
    task created, not notified, with the message of the error. *)
Theorem C1_notify_failure_reported_as_failure
        (lead : Lead) (w : World)
        (task : ClickUpTask) (created : ClickUpTaskResponse)
        (lead' : Lead) (created' : ClickUpTaskResponse)
        (userIds : list string) (channelId : string) (e : JSError) :
  isActionReady lead = true ->
  In (EvCreateTask task (inr created)) (events (run lead w)) ->
  In (EvNotify lead' created' userIds channelId (inl e))
     (events (run lead w)) ->
  outcome (run lead w) = inr (failed (message e)).
Proof.
  intro H. unfold_run. rewrite H.
  destruct (String.eqb (getListIdForTier cfg (tier lead)) "");
    unfold_run; [ simpl; tauto | ].
  destruct (JS.truthy (CLICKUP_API_TOKEN cfg));
    unfold_run; [ | simpl; tauto ].
  match goal with
  | |- context [createTask ext ?t w] =>
      destruct (createTask ext t w) as [[e1 | r1] w1]
  end;
    unfold_run; [ simpl; intros [ C | [ ] ]; discriminate C | ].
  destruct (String.eqb (getFrontDeskChannelId cfg) "");
    unfold_run; [ simpl; intros _ [ N | [ ] ]; discriminate N | ].
  destruct (JS.truthy (SLACK_BOT_TOKEN cfg));
    unfold_run; [ | simpl; intros _ [ N | [ ] ]; discriminate N ].
  match goal with
  | |- context [notifyTaskCreated ext lead r1 ?ids ?ch w1] =>
      destruct (notifyTaskCreated ext lead r1 ids ch w1) as [[e2 | u] w2]
  end; unfold_run; simpl.
  - intros _ [ N | [ N | [ ] ] ]; [ discriminate N | ].
    injection N as _ _ _ _ E. subst e2. reflexivity.
  - intros _ [ N | [ N | [ ] ] ]; discriminate N.
Qed.

Lemma BatchRun_length leads w outs w' evs :
  Batch leads w outs w' evs -> List.length outs = List.length leads.
Proof.
  induction 1 as [ | lead rest w out w1 ev1 outs w2 evs Hrun Hrest IH ];
    simpl; congruence.
Qed.

(** The loop, from any contents of the [results] array. *)
Lemma processMultipleLeads_loop_runs leads :
  forall results w,
  exists outs w' evs,
    batch_loop leads results w = (inr (results ++ outs)%list, w', evs) /\
    Batch leads w outs w' evs.
Proof.
  induction leads as [ | lead rest IH ]; intros results w.
  - exists [], w, []. simpl. rewrite app_nil_r.
    split; [ reflexivity | constructor ].
  - destruct (processLeadToTask_returns lead w) as (out & w1 & ev1 & Hrun).
    destruct (IH (results ++ [out])%list (sleep ext 1000 w1))
      as (outs & w2 & evs & Hloop & Hbatch).
    exists (out :: outs), w2, (ev1 ++ EvDelay 1000 :: evs)%list.
    split.
    + simpl. unfold bind at 1. rewrite Hrun.
      unfold bind, delay. rewrite Hloop.
      rewrite <- app_assoc. reflexivity.
    + econstructor; eassumption.
Qed.

(** C9: a batch returns (it never throws) one outcome per lead, in the
    order of the leads: the workflow is run once on each lead in turn,
    whatever the outcomes before it, and every run ends in an outcome. *)
Theorem C9_batch_one_outcome_per_lead (leads : list Lead) (w : World) :
  exists outs w' evs,
    batch leads w = (inr outs, w', evs) /\
    Batch leads w outs w' evs /\
    List.length outs = List.length leads /\
    (forall lead w0, exists out w1 ev, run lead w0 = (inr out, w1, ev)).
Proof.
  destruct (processMultipleLeads_loop_runs leads [] w)
    as (outs & w' & evs & Hloop & Hbatch).
  exists outs, w', evs.
  split; [ exact Hloop | ].
  split; [ exact Hbatch | ].
  split; [ eapply BatchRun_length; eassumption | ].
  apply processLeadToTask_returns.
Qed.

End WorkflowFacts.

(** ** The theorems at the sample data *)

Lemma C1_notify_failure_witness :
  isActionReady Sample.sarah = true /\
  outcome (processLeadToTask Sample.locale 0 Sample.configured
             Sample.slack_down Sample.sarah 0%nat)
  = inr (failed "Slack API error: channel_not_found").
Proof.
  split; [ reflexivity | ].
  apply (C1_notify_failure_reported_as_failure
           nat Sample.locale 0 Sample.configured Sample.slack_down
           Sample.sarah 0%nat
           (buildTaskFromLead Sample.locale 0 Sample.at_14h Sample.sarah
              "901100000004" [])
           (Sample.created
              (buildTaskFromLead Sample.locale 0 Sample.at_14h Sample.sarah
                 "901100000004" []))
           Sample.sarah
           (Sample.created
              (buildTaskFromLead Sample.locale 0 Sample.at_14h Sample.sarah
                 "901100000004" []))
           [] "C0FRONTDESK"
           (mkError "Slack API error: channel_not_found")).
  - reflexivity.
  - vm_compute. left. reflexivity.
  - vm_compute. right. left. reflexivity.
Defined.



Lemma C3_tier_ladder_witness :
  tier4_predicate (partial_of Sample.michael) = true /\
  tier3_predicate (partial_of Sample.michael) = true /\
  calculateLeadTier (partial_of Sample.michael) = 4.
Proof.
  split; [ reflexivity | ].
  split; [ reflexivity | ].
  apply (C3_tier_ladder (partial_of Sample.michael)); reflexivity.
Defined.

Lemma C4_readiness_by_tier_witness :
  stage Sample.tier5 = action_ready /\ isActionReady Sample.tier5 = false.
Proof.
  split; [ reflexivity | ].
  apply (C4_readiness_by_tier Sample.tier5); discriminate.
Defined.

Lemma C5_priority_mapping_witness :
  calculateTaskPriority 5 = normal /\ calculateTaskPriority 0 = normal.
Proof.
  split; apply C5_priority_mapping; discriminate.
Defined.

(** C7 as stated fails on the text of the message. *)
Lemma C7_counterexample :
  isActionReady Sample.jessica = false /\
  exists out,
    outcome (processLeadToTask Sample.locale 0 Sample.configured
               Sample.healthy Sample.jessica 0%nat) = inr out /\
    success out = true /\ taskCreated out = false /\
    error out = Some "Lead not yet at action stage" /\
    error out <> Some "lead not yet at action stage".
Proof.
  split; [ reflexivity | ].
  eexists. split; [ reflexivity | ].
  repeat split. simpl. discriminate.
Qed.

Lemma C7_not_ready_is_noop_witness :
  isActionReady Sample.jessica = false /\
  processLeadToTask Sample.locale 0 Sample.configured Sample.healthy
    Sample.jessica 0%nat
  = (inr {| success := true;
            taskCreated := false;
            taskId := None;
            taskUrl := None;
            slackNotified := false;
            error := Some "Lead not yet at action stage" |},
     0%nat, []).
Proof.
  split; [ reflexivity | ].
  apply (C7_not_ready_is_noop nat Sample.locale 0 Sample.configured
           Sample.healthy Sample.jessica 0%nat).
  reflexivity.
Defined.

(** C8 as stated fails on the text of the message. *)
Lemma C8_counterexample :
  isActionReady Sample.michael = true /\
  getListIdForTier Sample.tier3_unset (tier Sample.michael) = "" /\
  exists out,
    outcome (processLeadToTask Sample.locale 0 Sample.tier3_unset
               Sample.healthy Sample.michael 0%nat) = inr out /\
    success out = false /\ taskCreated out = false /\
    error out = Some "No ClickUp list configured for tier 3" /\
    error out <> Some "no destination configured for tier 3".
Proof.
  split; [ reflexivity | ].
  split; [ reflexivity | ].
  eexists. split; [ reflexivity | ].
  repeat split. simpl. discriminate.
Qed.

Lemma C8_no_list_configured_witness :
  processLeadToTask Sample.locale 0 Sample.tier3_unset Sample.healthy
    Sample.michael 0%nat
  = (inr (failed "No ClickUp list configured for tier 3"), 0%nat, []).
Proof.
  apply (C8_no_list_configured nat Sample.locale 0 Sample.tier3_unset
           Sample.healthy Sample.michael 0%nat); reflexivity.
Defined.

Lemma C10_condition_precedence_witness :
  cf_condition
    (match customFields
             (buildTaskFromLead Sample.locale 0 Sample.at_14h Sample.michael
                "901100000003" []) with
     | Some cf => cf
     | None => mkCustomFields None None None None None None None
     end)
  = Some "Neck pain and headaches" /\
  In (condition_line "Cervical strain after a car accident")
     (generateTaskDescription_parts Sample.locale Sample.michael).
Proof.
  destruct (C10_condition_precedence Sample.locale 0 Sample.at_14h
              Sample.michael "901100000003" []
              "Neck pain and headaches"
              "Cervical strain after a car accident"
              eq_refl ltac:(discriminate) eq_refl ltac:(discriminate))
    as [(cf & Hcf & Hcond) (before & after & _ & Hparts & _)].
  split.
  - rewrite Hcf. exact Hcond.
  - rewrite Hparts. apply in_elt.
Defined.

(** ** The scenarios of the specification *)

(** Due dates at 14 h and at 16 h UTC on 17 December 2025, and at 14 h in a
    zone five hours behind UTC. *)
Example due_tier3_at_14h :
  calculateDueDate 0 Sample.at_14h 3 = 1765990800000.
Proof. vm_compute. reflexivity. Qed.

Example due_tier3_at_16h :
  calculateDueDate 0 Sample.at_16h 3 = 1766077200000.
Proof. vm_compute. reflexivity. Qed.

Example due_tier3_at_14h_local :
  calculateDueDate (-18000000) 1765998000000 3 = 1766008800000.
Proof. vm_compute. reflexivity. Qed.

(** Across the end of a month and of a year: 31 December 2025, 16 h. *)
Example due_tier1_new_year :
  calculateDueDate 0 1767196800000 1 = 1767373200000.
Proof. vm_compute. reflexivity. Qed.

(** Scenario A: a ready tier-4 lead gets an urgent task due in two hours
    and a notification. *)
Example scenario_A :
  let r := processLeadToTask Sample.locale 0 Sample.configured Sample.healthy
             Sample.sarah 0%nat in
  outcome r
  = inr {| success := true;
           taskCreated := true;
           taskId := Some "86abc";
           taskUrl := Some "https://app.clickup.com/t/86abc";
           slackNotified := true;
           error := None |} /\
  exists task lead created ids channel,
    events r = [ EvCreateTask task (inr created);
                 EvNotify lead created ids channel (inr tt) ] /\
    priority task = urgent /\
    dueDate task = Some (Sample.at_14h + 2 * JSDate.msPerHour).
Proof.
  split; [ vm_compute; reflexivity | ].
  do 5 eexists. split; [ vm_compute; reflexivity | ].
  split; reflexivity.
Qed.

(** Three leads, the task store failing on the second: three outcomes, the
    second a failure, the third a success. *)
Example batch_with_store_error :
  map success
      (match outcome (processMultipleLeads Sample.locale 0 Sample.configured
                        Sample.second_create_fails
                        [Sample.sarah; Sample.michael; Sample.sarah] 0%nat)
       with
       | inr outs => outs
       | inl _ => []
       end)
  = [true; false; true].
Proof. vm_compute. reflexivity. Qed.

(** * Further properties of the code *)

(** ** Every way a run can end *)

Section WorkflowPaths.

Variable World : Type.
Variable toLocaleDateString : string -> string.
Variable tza : Z.
Variable cfg : Config.
Variable ext : External World.

Local Abbreviation run := (processLeadToTask toLocaleDateString tza cfg ext).
Local Abbreviation batch :=
  (processMultipleLeads toLocaleDateString tza cfg ext).
Local Abbreviation batch_loop :=
  (processMultipleLeads_loop toLocaleDateString tza cfg ext).
Local Abbreviation Batch := (BatchRun toLocaleDateString tza cfg ext).
Local Abbreviation Case := (RunCase toLocaleDateString tza cfg ext).

Ltac run_steps :=
  cbv beta iota zeta delta
    [processLeadToTask try_catch processLeadToTask_try bind ret throw now
     getClickUpClient getSlackClient clickup_createTask
     slack_notifyTaskCreated negb fst snd].

Lemma run_case (lead : Lead) (w : World) : Case lead w (run lead w).
Proof.
  run_steps.
  destruct (isActionReady lead) eqn:Hready; run_steps;
    [ | apply Run_not_ready; assumption ].
  destruct (String.eqb_spec (getListIdForTier cfg (tier lead)) "")
    as [ Hlist | Hlist ]; run_steps;
    [ apply Run_no_list; assumption | ].
  destruct (JS.truthy (CLICKUP_API_TOKEN cfg)) eqn:Htoken; run_steps;
    [ | apply Run_no_store_token; assumption ].
  fold (task_for toLocaleDateString tza cfg ext lead w).
  destruct (createTask ext (task_for toLocaleDateString tza cfg ext lead w) w)
    as [[e1 | created] w1] eqn:Hcreate; run_steps;
    [ eapply Run_store_error; eassumption | ].
  destruct (String.eqb_spec (getFrontDeskChannelId cfg) "")
    as [ Hchan | Hchan ]; run_steps;
    [ eapply Run_notify_skipped; eassumption | ].
  destruct (JS.truthy (SLACK_BOT_TOKEN cfg)) eqn:Hslack; run_steps;
    [ | eapply Run_no_messaging_token; eassumption ].
  destruct (notifyTaskCreated ext lead created getFrontDeskSlackIds
              (getFrontDeskChannelId cfg) w1)
    as [[e2 | []] w2] eqn:Hnotify; run_steps.
  - eapply Run_notify_failed; eassumption.
  - eapply Run_notified; eassumption.
Qed.

(** The workflow ends in exactly one of eight ways, each with its outcome,
    its final world and its calls: gate refusal; no list for the tier; no
    task-store token; task-store error; task created without a channel to
    notify; task created but no messaging token; task created but the
    notification failed; task created and notified. *)
Theorem processLeadToTask_cases (lead : Lead) (w : World) :
  Case lead w (run lead w).
Proof. apply run_case. Qed.

Lemma run_events_no_delay (lead : Lead) (w : World) :
  filter is_delay (events (run lead w)) = [].
Proof.
  pose proof (run_case lead w) as C.
  inversion C; subst; reflexivity.
Qed.

Lemma ready_tier_declared (lead : Lead) :
  isActionReady lead = true ->
  tier lead = 4 \/ tier lead = 3 \/ tier lead = 2 \/ tier lead = 1.
Proof.
  intro H.
  destruct (Z.eq_dec (tier lead) 4); [ tauto | ].
  destruct (Z.eq_dec (tier lead) 3); [ tauto | ].
  destruct (Z.eq_dec (tier lead) 2); [ tauto | ].
  destruct (Z.eq_dec (tier lead) 1); [ tauto | ].
  unfold isActionReady in H.
  rewrite tier_switch_default in H by assumption. discriminate H.
Qed.

(** The flags of an outcome agree with each other: notified only with a
    task created, a task created only with success, an identifier, a link
    and no error text; a failure carries an error text and neither task nor
    notification; and an outcome without error text has a task created. *)
Theorem outcome_flags_consistent
        (lead : Lead) (w : World) (out : LeadToTaskResult)
        (w' : World) (ev : list Event) :
  run lead w = (inr out, w', ev) ->
  (slackNotified out = true -> taskCreated out = true) /\
  (taskCreated out = true ->
   success out = true /\ taskId out <> None /\ taskUrl out <> None /\
   error out = None) /\
  (success out = false ->
   taskCreated out = false /\ slackNotified out = false /\
   taskId out = None /\ taskUrl out = None /\ error out <> None) /\
  (error out = None -> taskCreated out = true).
Proof.
  intro H. pose proof (run_case lead w) as C.
  rewrite H in C.
  inversion C; subst; simpl; repeat split; intros;
    try discriminate; try reflexivity; try assumption.
Qed.

(** A run makes no call, or one create call, or one successful create call
    followed by one notify call for the task just created; it never
    pauses. *)
Theorem workflow_call_discipline (lead : Lead) (w : World) :
  let ev := events (run lead w) in
  (ev = [] \/
   (exists r, ev = [EvCreateTask (task_for toLocaleDateString tza cfg ext
                                    lead w) r]) \/
   (exists created r,
       ev = [EvCreateTask (task_for toLocaleDateString tza cfg ext lead w)
               (inr created);
             EvNotify lead created getFrontDeskSlackIds
               (getFrontDeskChannelId cfg) r])) /\
  filter is_delay ev = [].
Proof.
  pose proof (run_case lead w) as C.
  inversion C; subst; cbv [events snd]; simpl; split; eauto 6.
Qed.

(** An outcome never claims more than happened: with [taskCreated] the
    store answered the create call with the very identifier and link of the
    outcome, and with [slackNotified] the notify call succeeded. *)
Theorem outcome_never_overclaims
        (lead : Lead) (w : World) (out : LeadToTaskResult)
        (w' : World) (ev : list Event) :
  run lead w = (inr out, w', ev) ->
  (taskCreated out = true ->
   exists created,
     In (EvCreateTask (task_for toLocaleDateString tza cfg ext lead w)
           (inr created)) ev /\
     taskId out = Some (resp_id created) /\
     taskUrl out = Some (resp_url created)) /\
  (slackNotified out = true ->
   exists created,
     In (EvNotify lead created getFrontDeskSlackIds
           (getFrontDeskChannelId cfg) (inr tt)) ev).
Proof.
  intro H. pose proof (run_case lead w) as C.
  rewrite H in C.
  inversion C; subst; simpl; split; intros; try discriminate;
    eexists; eauto.
Qed.

(** The task store is asked to create only for a lead that passed the
    gate, whose tier is one of the four declared ones and has a list
    configured, with the task token set; the task sent is the one built
    from the lead at the clock reading of the start of the run, in the list
    of the lead's tier. *)
Theorem create_call_only_when_ready
        (lead : Lead) (w : World) (task : ClickUpTask)
        (r : JSError + ClickUpTaskResponse) :
  In (EvCreateTask task r) (events (run lead w)) ->
  isActionReady lead = true /\
  (tier lead = 4 \/ tier lead = 3 \/ tier lead = 2 \/ tier lead = 1) /\
  task = task_for toLocaleDateString tza cfg ext lead w /\
  listId task = getListIdForTier cfg (tier lead) /\
  listId task <> "" /\
  JS.truthy (CLICKUP_API_TOKEN cfg) = true.
Proof.
  pose proof (run_case lead w) as C.
  inversion C; subst; cbv [events snd]; simpl; intro E;
    repeat (destruct E as [ E | E ]); try contradiction;
    try discriminate E;
    injection E as Et Er; subst task r;
    (split; [ assumption | ]);
    (split; [ apply ready_tier_declared; assumption | ]);
    repeat split; assumption.
Qed.

(** ** Batches *)

Lemma run_events_counts (lead : Lead) (w : World) :
  (List.length (filter is_notify (events (run lead w)))
   <= List.length (filter is_create (events (run lead w))) <= 1)%nat.
Proof.
  pose proof (run_case lead w) as C.
  inversion C; subst; cbv [events snd]; simpl; lia.
Qed.

Lemma BatchRun_calls leads w outs w' evs :
  Batch leads w outs w' evs ->
  filter is_delay evs = repeat (EvDelay 1000) (List.length leads) /\
  (List.length (filter is_notify evs)
   <= List.length (filter is_create evs) <= List.length leads)%nat.
Proof.
  induction 1 as [ | lead rest w out w1 ev1 outs w2 evs Hrun Hrest IH ].
  - simpl. split; [ reflexivity | lia ].
  - destruct IH as [ IHd IHc ].
    pose proof (run_events_no_delay lead w) as Hd.
    pose proof (run_events_counts lead w) as Hc.
    rewrite Hrun in Hd, Hc. cbv [events snd] in Hd, Hc.
    rewrite !filter_app. simpl filter. rewrite Hd, IHd.
    rewrite !length_app. simpl. split; [ reflexivity | lia ].
Qed.

Lemma batch_loop_not_ready leads :
  (forall lead, In lead leads -> isActionReady lead = false) ->
  forall results w,
    batch_loop leads results w
    = (inr (results ++ map (fun _ => not_ready) leads)%list,
       Nat.iter (List.length leads) (sleep ext 1000) w,
       repeat (EvDelay 1000) (List.length leads)).
Proof.
  induction leads as [ | lead rest IH ]; intros Hall results w.
  - simpl. rewrite app_nil_r. reflexivity.
  - assert (Hrun : run lead w = (inr not_ready, w, [])).
    { pose proof (run_case lead w) as C.
      inversion C; subst; try reflexivity;
        match goal with
        | H : isActionReady lead = true |- _ =>
            rewrite (Hall lead (or_introl eq_refl)) in H; discriminate H
        end. }
    simpl processMultipleLeads_loop. unfold bind at 1. rewrite Hrun.
    unfold bind, delay.
    rewrite IH by (intros l' Hl'; apply Hall; right; exact Hl').
    rewrite <- app_assoc. simpl List.length.
    rewrite Nat.iter_succ_r. reflexivity.
Qed.

(** A batch of leads that the gate refuses makes no call to the store or
    to the messaging service: it returns the not-ready outcome for each
    lead and only pauses. *)
Theorem batch_of_unready_leads (leads : list Lead) (w : World) :
  (forall lead, In lead leads -> isActionReady lead = false) ->
  batch leads w
  = (inr (map (fun _ => not_ready) leads),
     Nat.iter (List.length leads) (sleep ext 1000) w,
     repeat (EvDelay 1000) (List.length leads)).
Proof.
  intro Hall. unfold processMultipleLeads.
  rewrite batch_loop_not_ready by assumption. reflexivity.
Qed.

Lemma batch_loop_app l1 :
  forall l2 results w,
    batch_loop (l1 ++ l2) results w
    = let '(r1, w1, e1) := batch_loop l1 results w in
      match r1 with
      | inl e => (inl e, w1, e1)
      | inr results1 =>
          let '(r2, w2, e2) := batch_loop l2 results1 w1 in
          (r2, w2, (e1 ++ e2)%list)
      end.
Proof.
  induction l1 as [ | lead rest IH ]; intros l2 results w.
  - simpl. destruct (batch_loop l2 results w) as [[r2 w2] e2]. reflexivity.
  - simpl app. simpl processMultipleLeads_loop. unfold bind at 1 3.
    destruct (run lead w) as [[[e | out] w1] ev1]; [ reflexivity | ].
    unfold bind, delay. rewrite IH.
    destruct (batch_loop rest (results ++ [out]) (sleep ext 1000 w1))
      as [[[e | results1] w2] e2]; [ reflexivity | ].
    destruct (batch_loop l2 results1 w2) as [[r3 w3] e3].
    simpl. rewrite <- !app_assoc. reflexivity.
Qed.

Lemma batch_loop_from results leads w outs w' evs :
  Batch leads w outs w' evs ->
  batch_loop leads results w = (inr (results ++ outs)%list, w', evs).
Proof.
  intro H. revert results.
  induction H as [ | lead rest w out w1 ev1 outs w2 evs Hrun Hrest IH ];
    intro results.
  - simpl. rewrite app_nil_r. reflexivity.
  - simpl processMultipleLeads_loop. unfold bind at 1. rewrite Hrun.
    unfold bind, delay. rewrite IH. rewrite <- app_assoc. reflexivity.
Qed.

Lemma BatchRun_segments leads w outs w' evs :
  Batch leads w outs w' evs ->
  exists segments : list (list Event),
    Forall2 (fun lead seg =>
               (exists w0, seg = events (run lead w0)) /\
               filter is_delay seg = [])
      leads segments /\
    evs = flat_map (fun seg => (seg ++ [EvDelay 1000])%list) segments.
Proof.
  induction 1 as [ | lead rest w out w1 ev1 outs w2 evs Hrun Hrest IH ].
  - exists []. split; [ constructor | reflexivity ].
  - destruct IH as (segments & Hsegs & Hevs).
    exists (ev1 :: segments). split.
    + constructor; [ | exact Hsegs ].
      pose proof (run_events_no_delay lead w) as Hd.
      rewrite Hrun in Hd. split; [ | exact Hd ].
      exists w. rewrite Hrun. reflexivity.
    + simpl. rewrite <- app_assoc, Hevs. reflexivity.
Qed.

(** The calls of a batch: those of the run on its first lead, the pause,
    then those of the batch of the other leads, from the world the run and
    the pause left. *)
Lemma batch_events_step (lead : Lead) (rest : list Lead) (w : World) :
  events (batch (lead :: rest) w)
  = (events (run lead w)
       ++ EvDelay 1000
       :: events (batch rest (sleep ext 1000 (final (run lead w)))))%list.
Proof.
  destruct (processMultipleLeads_loop_runs World toLocaleDateString tza cfg
              ext (lead :: rest) [] w) as (outs & w' & evs & Hloop & Hbatch).
  unfold processMultipleLeads at 1. rewrite Hloop.
  inversion Hbatch as [ | lead' rest' w0 out w1 ev1 outs' w2 evs' Hrun Hrest ];
    subst.
  rewrite Hrun. unfold processMultipleLeads.
  cbv [events final fst snd].
  rewrite (batch_loop_from [] rest _ _ _ _ Hrest). reflexivity.
Qed.

Lemma BatchRun_ends_with_pause leads w outs w' evs :
  Batch leads w outs w' evs -> leads <> [] ->
  exists front, evs = (front ++ [EvDelay 1000])%list.
Proof.
  induction 1 as [ | lead rest w out w1 ev1 outs w2 evs Hrun Hrest IH ];
    intro Hne; [ contradiction | ].
  destruct rest as [ | next rest ].
  - inversion Hrest; subst. exists ev1. reflexivity.
  - destruct IH as (front & ->); [ discriminate | ].
    exists (ev1 ++ EvDelay 1000 :: front)%list.
    rewrite <- app_assoc. reflexivity.
Qed.

(** The calls of a batch are, lead by lead in the order of the leads, the
    calls of the run on that lead, none of them a pause, followed by one
    pause of 1000 ms; the run on the first lead starts from the world of the
    batch, and the rest of the batch from the world that run and its pause
    left.  The batch pauses after every lead, the last one included, so that
    a batch that is not empty ends with a pause.  It pauses exactly once per
    lead, asks the store to create at most once per lead, and notifies at
    most once per create call. *)
Theorem batch_pauses_after_each_lead (leads : list Lead) (w : World) :
  let ev := events (batch leads w) in
  (exists segments : list (list Event),
      Forall2 (fun lead seg =>
                 (exists w0, seg = events (run lead w0)) /\
                 filter is_delay seg = [])
        leads segments /\
      ev = flat_map (fun seg => (seg ++ [EvDelay 1000])%list) segments) /\
  (forall lead rest,
      leads = lead :: rest ->
      ev = (events (run lead w)
              ++ EvDelay 1000
              :: events (batch rest
                           (sleep ext 1000 (final (run lead w)))))%list) /\
  (leads <> [] -> exists front, ev = (front ++ [EvDelay 1000])%list) /\
  filter is_delay ev = repeat (EvDelay 1000) (List.length leads) /\
  (List.length (filter is_notify ev)
   <= List.length (filter is_create ev) <= List.length leads)%nat.
Proof.
  cbv zeta.
  destruct (processMultipleLeads_loop_runs World toLocaleDateString tza cfg
              ext leads [] w) as (outs & w' & evs & Hloop & Hbatch).
  assert (E : events (batch leads w) = evs).
  { unfold processMultipleLeads. rewrite Hloop. reflexivity. }
  split; [ rewrite E; eapply BatchRun_segments; eassumption | ].
  split; [ intros lead rest ->; apply batch_events_step | ].
  rewrite E.
  split; [ eapply BatchRun_ends_with_pause; eassumption | ].
  eapply BatchRun_calls. eassumption.
Qed.

(** Processing two lists of leads one after the other, the second from the
    world the first left, gives the same outcomes, final world and calls as
    processing their concatenation in one batch. *)
Theorem batch_append (l1 l2 : list Lead) (w : World) :
  exists outs1 w1 ev1 outs2 w2 ev2,
    batch l1 w = (inr outs1, w1, ev1) /\
    batch l2 w1 = (inr outs2, w2, ev2) /\
    batch (l1 ++ l2) w = (inr (outs1 ++ outs2)%list, w2, (ev1 ++ ev2)%list).
Proof.
  destruct (processMultipleLeads_loop_runs World toLocaleDateString tza cfg
              ext l1 [] w) as (outs1 & w1 & ev1 & H1 & _).
  destruct (processMultipleLeads_loop_runs World toLocaleDateString tza cfg
              ext l2 [] w1) as (outs2 & w2 & ev2 & H2 & B2).
  exists outs1, w1, ev1, outs2, w2, ev2.
  unfold processMultipleLeads.
  split; [ exact H1 | ].
  split; [ exact H2 | ].
  rewrite batch_loop_app, H1. simpl.
  rewrite (batch_loop_from outs1 l2 w1 outs2 w2 ev2 B2). reflexivity.
Qed.

End WorkflowPaths.

(** ** The tier and the gate *)

Lemma tier_at_least_2 (l : PartialLead) :
  2 <= calculateLeadTier l <-> tier2_predicate l = true.
Proof.
  unfold calculateLeadTier, tier2_predicate, present.
  destruct (JS.truthy (p_firstName l)), (JS.truthy (p_lastName l)),
    (JS.truthy (p_phone l)), (JS.truthy (p_email l)),
    (JS.truthy (p_specificCondition l)), (JS.truthy (p_condition l)),
    (defined (p_isPregnant l)), (JS.truthy (p_birthDate l));
    simpl; split; intro; try reflexivity; try discriminate; lia.
Qed.

Lemma tier_at_least_3 (l : PartialLead) :
  3 <= calculateLeadTier l
  <-> tier4_predicate l = true \/ tier3_predicate l = true.
Proof.
  unfold calculateLeadTier, tier4_predicate, tier3_predicate, present.
  destruct (JS.truthy (p_firstName l)), (JS.truthy (p_lastName l)),
    (JS.truthy (p_phone l)), (JS.truthy (p_email l)),
    (JS.truthy (p_specificCondition l)), (JS.truthy (p_condition l)),
    (defined (p_isPregnant l)), (JS.truthy (p_birthDate l));
    simpl; split; intro H; try tauto; try lia;
    destruct H; discriminate.
Qed.

Lemma tier_at_least_4 (l : PartialLead) :
  4 <= calculateLeadTier l <-> tier4_predicate l = true.
Proof.
  unfold calculateLeadTier, tier4_predicate, present.
  destruct (JS.truthy (p_firstName l)), (JS.truthy (p_lastName l)),
    (JS.truthy (p_phone l)), (JS.truthy (p_email l)),
    (JS.truthy (p_specificCondition l)), (JS.truthy (p_condition l)),
    (defined (p_isPregnant l)), (JS.truthy (p_birthDate l));
    simpl; split; intro; try reflexivity; try discriminate; lia.
Qed.

Lemma tier_range (l : PartialLead) : 1 <= calculateLeadTier l <= 4.
Proof.
  unfold calculateLeadTier.
  repeat match goal with
         | |- context [if ?c then _ else _] => destruct c
         end; lia.
Qed.

Lemma and_true_mono (a b a' b' : bool) :
  (a = true -> a' = true) -> (b = true -> b' = true) ->
  a && b = true -> a' && b' = true.
Proof.
  intros Ha Hb H. apply andb_true_iff in H. destruct H.
  apply andb_true_iff. auto.
Qed.

Lemma or_true_mono (a b a' b' : bool) :
  (a = true -> a' = true) -> (b = true -> b' = true) ->
  a || b = true -> a' || b' = true.
Proof.
  intros Ha Hb H. apply orb_true_iff in H.
  apply orb_true_iff. destruct H; auto.
Qed.

(** Knowing more about a lead never lowers its tier. *)
Theorem tier_monotone_in_data (l l' : PartialLead) :
  richer l l' -> calculateLeadTier l <= calculateLeadTier l'.
Proof.
  intros (Hf & Hl & Hp & He & Hc & Hs & Hg & Hb).
  assert (M2 : tier2_predicate l = true -> tier2_predicate l' = true).
  { unfold tier2_predicate. apply and_true_mono; assumption. }
  assert (M3 : tier3_predicate l = true -> tier3_predicate l' = true).
  { unfold tier3_predicate.
    repeat (apply and_true_mono; try assumption). }
  assert (M4 : tier4_predicate l = true -> tier4_predicate l' = true).
  { unfold tier4_predicate.
    repeat (apply and_true_mono; try assumption).
    apply or_true_mono; assumption. }
  pose proof (tier_range l) as R. pose proof (tier_range l') as R'.
  pose proof (tier_at_least_2 l) as A2.
  pose proof (tier_at_least_3 l) as A3.
  pose proof (tier_at_least_4 l) as A4.
  pose proof (tier_at_least_2 l') as B2.
  pose proof (tier_at_least_3 l') as B3.
  pose proof (tier_at_least_4 l') as B4.
  destruct (Z_le_gt_dec 4 (calculateLeadTier l)) as [ G4 | G4 ].
  { apply A4, M4, B4 in G4. lia. }
  destruct (Z_le_gt_dec 3 (calculateLeadTier l)) as [ G3 | G3 ].
  { apply A3 in G3.
    assert (3 <= calculateLeadTier l') by (apply B3; tauto). lia. }
  destruct (Z_le_gt_dec 2 (calculateLeadTier l)) as [ G2 | G2 ].
  { apply A2, M2, B2 in G2. lia. }
  lia.
Qed.

(** What each tier needs: without both phone and email a lead is tier 1
    whatever else is known, and only then; tier 3 and above need the full
    name; tier 3 itself needs the general condition, which the detailed one
    does not replace; tier 4 needs the detailed condition and the pregnancy
    flag or the birth date. *)
Theorem tier_requirements (l : PartialLead) :
  (calculateLeadTier l = 1
   <-> present (p_phone l) = false \/ present (p_email l) = false) /\
  (3 <= calculateLeadTier l ->
   present (p_firstName l) = true /\ present (p_lastName l) = true) /\
  (calculateLeadTier l = 3 -> present (p_condition l) = true) /\
  (calculateLeadTier l = 4 ->
   present (p_specificCondition l) = true /\
   (defined (p_isPregnant l) = true \/ present (p_birthDate l) = true)).
Proof.
  unfold calculateLeadTier, present.
  destruct (JS.truthy (p_firstName l)), (JS.truthy (p_lastName l)),
    (JS.truthy (p_phone l)), (JS.truthy (p_email l)),
    (JS.truthy (p_specificCondition l)), (JS.truthy (p_condition l)),
    (defined (p_isPregnant l)), (JS.truthy (p_birthDate l));
    simpl; repeat split; intros; try tauto; try lia; try discriminate;
    match goal with
    | H : _ \/ _ |- _ => destruct H; discriminate
    end.
Qed.

(** More engagement never closes the gate: with the tier and the stage
    unchanged and neither counter lower, a ready lead stays ready. *)
Theorem gate_monotone_in_engagement (l l' : Lead) :
  tier l' = tier l -> stage l' = stage l ->
  JS.or_zero (emailsOpened l) <= JS.or_zero (emailsOpened l') ->
  JS.or_zero (emailsClicked l) <= JS.or_zero (emailsClicked l') ->
  isActionReady l = true -> isActionReady l' = true.
Proof.
  intros Ht Hs Ho Hc H.
  destruct (ready_tier_declared l H) as [ E | [ E | [ E | E ] ] ];
    unfold isActionReady in *; rewrite Ht, Hs; rewrite E in *.
  - exact H.
  - apply andb_true_iff in H. destruct H as [ H1 H2 ].
    apply Z.leb_le in H1, H2.
    apply andb_true_iff. split; apply Z.leb_le; lia.
  - apply orb_true_iff in H. apply orb_true_iff.
    destruct H as [ H | H ]; apply Z.leb_le in H;
      [ left | right ]; apply Z.leb_le; lia.
  - exact H.
Qed.

(** What the gate reads: on tiers 2 and 3 only the two counters, never the
    stage, so that a lead marked lost or converted still passes with enough
    engagement; on tiers 4 and 1 only the stage, never the counters. *)
Theorem gate_inputs_by_tier (l l' : Lead) :
  tier l' = tier l ->
  (tier l = 2 \/ tier l = 3 ->
   emailsOpened l' = emailsOpened l ->
   emailsClicked l' = emailsClicked l ->
   isActionReady l' = isActionReady l) /\
  (tier l = 4 \/ tier l = 1 ->
   stage l' = stage l ->
   isActionReady l' = isActionReady l).
Proof.
  intro Ht. unfold isActionReady. rewrite Ht. split.
  - intros [ E | E ] Ho Hc; rewrite E, Ho, Hc; reflexivity.
  - intros [ E | E ] Hs; rewrite E, Hs; reflexivity.
Qed.

(** ** Due dates, names and the request sent to the store *)

Section DueDateFacts.

Variable tza : Z.

Local Abbreviation due := (calculateDueDate tza).
Local Abbreviation local := (JSDate.LocalTime tza).

(** The local time of [t] and of the due dates, by the day [d] and the
    time [r] within the day of [t]. *)
Lemma due_dates_unfolded (t : Z) :
  exists d r,
    0 <= r < 86400000 /\
    t + tza = d * 86400000 + r /\
    JSDate.HourFromTime (t + tza) * 3600000 <= r
    < (JSDate.HourFromTime (t + tza) + 1) * 3600000 /\
    JSDate.Day (t + tza) = d /\
    due t 4 = t + 7200000 /\
    due t 3 + tza
    = (d + (if JSDate.getHours tza t <? 15 then 0 else 1)) * 86400000
      + 61200000 /\
    due t 2 + tza = (d + 1) * 86400000 + 61200000 /\
    due t 1 + tza = (d + 2) * 86400000 + 61200000.
Proof.
  exists (JSDate.Day (t + tza)), (JSDate.TimeWithinDay (t + tza)).
  pose proof (JSDateFacts.hour_bounds (t + tza)) as B.
  pose proof (JSDateFacts.day_split (t + tza)) as S.
  pose proof (due_tier4 tza t) as E4.
  pose proof (due_tier3 tza t) as E3.
  pose proof (due_tier2 tza t) as E2.
  pose proof (due_tier1 tza t) as E1.
  rewrite at_17_value in E3, E2, E1.
  rewrite !local_value in E3, E2, E1.
  assert (R : 0 <= JSDate.TimeWithinDay (t + tza) < 86400000).
  { unfold JSDate.TimeWithinDay, JSDate.msPerDay.
    apply Z.mod_pos_bound. lia. }
  repeat split; try assumption; try apply R; try apply B.
Qed.

(** How far ahead a due date lies: two hours for tier 4; more than two and
    at most 26 hours for tier 3; more than 17 and at most 41 hours for
    tier 2; more than 41 and at most 65 hours for tier 1.  A higher tier is
    never due later than a lower one. *)
Theorem due_date_windows (t : Z) :
  due t 4 = t + 2 * JSDate.msPerHour /\
  t + 2 * JSDate.msPerHour < due t 3 <= t + 26 * JSDate.msPerHour /\
  t + 17 * JSDate.msPerHour < due t 2 <= t + 41 * JSDate.msPerHour /\
  t + 41 * JSDate.msPerHour < due t 1 <= t + 65 * JSDate.msPerHour /\
  due t 4 < due t 3 /\ due t 3 <= due t 2 /\ due t 2 < due t 1.
Proof.
  destruct (due_dates_unfolded t)
    as (d & r & R & S & B & _ & E4 & E3 & E2 & E1).
  unfold JSDate.getHours, JSDate.LocalTime in E3.
  generalize dependent (due t 4). generalize dependent (due t 3).
  generalize dependent (due t 2). generalize dependent (due t 1).
  intros d1 E1 d2 E2 d3 E3 d4 E4.
  unfold JSDate.msPerHour.
  destruct (Z.ltb_spec (JSDate.HourFromTime (t + tza)) 15); lia.
Qed.

(** The tier-2 and tier-1 due dates are never moved off a weekend: the due
    date of tier 2 falls on the day of the week after today's, whatever day
    that is, and the due date of tier 1 two days after. *)
Theorem due_date_ignores_weekends (t : Z) :
  WeekDay (local (due t 2)) = (WeekDay (local t) + 1) mod 7 /\
  WeekDay (local (due t 1)) = (WeekDay (local t) + 2) mod 7.
Proof.
  rewrite due_tier2, due_tier1. unfold WeekDay.
  destruct (at_17_fields (JSDate.Day (local t) + 1)) as (D1 & _).
  destruct (at_17_fields (JSDate.Day (local t) + 2)) as (D2 & _).
  rewrite D1, D2.
  generalize (JSDate.Day (local t)). intro d.
  split; Z.div_mod_to_equations; lia.
Qed.

End DueDateFacts.

Lemma truthy_nonempty (o : option string) :
  JS.truthy o = true -> JS.interp o <> "" /\ o = Some (JS.interp o).
Proof.
  destruct o as [ s | ]; simpl; [ | discriminate ].
  destruct (String.eqb_spec s ""); [ discriminate | ]. auto.
Qed.

(** The name of a task is "Follow up with D (Tier N)" where the display
    name D is never empty: first and last name when both are present, else
    the email, else the phone, else the social handle, else
    "Unknown Lead"; a first name without a last name is not used. *)
Theorem task_name_display (lead : Lead) :
  exists display,
    generateTaskName lead
    = "Follow up with " ++ display ++ " (Tier " ++
      JS.number_to_string (tier lead) ++ ")" /\
    display <> "" /\
    (JS.truthy (firstName lead) && JS.truthy (lastName lead) = true ->
     display = JS.interp (firstName lead) ++ " " ++
               JS.interp (lastName lead)) /\
    (JS.truthy (firstName lead) && JS.truthy (lastName lead) = false ->
     (JS.truthy (email lead) = true /\ email lead = Some display) \/
     (JS.truthy (email lead) = false /\
      JS.truthy (phone lead) = true /\ phone lead = Some display) \/
     (JS.truthy (email lead) = false /\ JS.truthy (phone lead) = false /\
      JS.truthy (socialHandle lead) = true /\
      socialHandle lead = Some display) \/
     (JS.truthy (email lead) = false /\ JS.truthy (phone lead) = false /\
      JS.truthy (socialHandle lead) = false /\
      display = "Unknown Lead")).
Proof.
  unfold generateTaskName.
  destruct (JS.truthy (firstName lead) && JS.truthy (lastName lead)) eqn:N.
  - eexists. split; [ reflexivity | ].
    split; [ | split; [ reflexivity | discriminate ] ].
    apply andb_true_iff in N. destruct N as [ F _ ].
    destruct (truthy_nonempty _ F) as [ F' _ ].
    destruct (JS.interp (firstName lead)); [ contradiction | discriminate ].
  - unfold JS.or_else.
    destruct (JS.truthy (email lead)) eqn:E.
    { destruct (truthy_nonempty _ E) as [ E1 E2 ].
      eexists. split; [ reflexivity | ].
      split; [ exact E1 | ]. split; [ discriminate | ]. auto. }
    destruct (JS.truthy (phone lead)) eqn:P.
    { destruct (truthy_nonempty _ P) as [ P1 P2 ].
      eexists. split; [ reflexivity | ].
      split; [ exact P1 | ]. split; [ discriminate | ]. auto 6. }
    destruct (JS.truthy (socialHandle lead)) eqn:S.
    { destruct (truthy_nonempty _ S) as [ S1 S2 ].
      eexists. split; [ reflexivity | ].
      split; [ exact S1 | ]. split; [ discriminate | ]. auto 8. }
    eexists. split; [ reflexivity | ].
    split; [ discriminate | ]. split; [ discriminate | ]. auto 8.
Qed.

(** The request that creates the task of a lead: its priority number is
    5 minus the tier on tiers 1-4 (1 is the most urgent) and 3 otherwise;
    it always carries a due date; and it never carries the custom fields,
    whatever the lead holds. *)
Theorem create_request_of_lead
        (toLocaleDateString : string -> string) (tza now : Z)
        (lead : Lead) (listId : string) (assignees : list string) :
  let task :=
    buildTaskFromLead toLocaleDateString tza now lead listId assignees in
  let payload := createTask_payload task in
  (tier lead = 4 \/ tier lead = 3 \/ tier lead = 2 \/ tier lead = 1 ->
   pl_priority payload = 5 - tier lead) /\
  (tier lead <> 4 -> tier lead <> 3 -> tier lead <> 2 -> tier lead <> 1 ->
   pl_priority payload = 3) /\
  pl_due_date payload = Some (calculateDueDate tza now (tier lead)) /\
  pl_custom_fields payload = [] /\
  pl_assignees payload = assignees /\
  createTask_path task = "/list/" ++ listId ++ "/task".
Proof.
  simpl. repeat split.
  - intros [ E | [ E | [ E | E ] ] ]; rewrite E; reflexivity.
  - intros. unfold calculateTaskPriority.
    rewrite tier_switch_default by assumption. reflexivity.
Qed.

(** ** Configuration *)

Lemma eqb_empty_iff (s : string) : String.eqb s "" = false <-> s <> "".
Proof. apply String.eqb_neq. Qed.

Lemma is_empty_iff {A : Type} (l : list A) : is_empty l = true <-> l = [].
Proof. destruct l; simpl; split; intro H; try reflexivity; discriminate. Qed.

Lemma push_if_nil_iff (guard : bool) (line : string) (parts : list string) :
  push_if guard line parts = [] <-> guard = false /\ parts = [].
Proof.
  unfold push_if, push. destruct guard; split.
  - intro H. apply app_eq_nil in H. destruct H as [ _ H ]. discriminate H.
  - intros [ H _ ]. discriminate H.
  - auto.
  - intros [ _ H ]. exact H.
Qed.

Lemma validateStructure_valid_iff_aux (s : ClickUpStructure) :
  valid (validateStructure s) = true
  <-> (workspaceId s <> "" /\ frontDesk_id s <> "" /\ newLeads_id s <> "" /\
       tier4Urgent (newLeads_lists s) <> "" /\
       tier3High (newLeads_lists s) <> "" /\
       tier2Normal (newLeads_lists s) <> "" /\
       tier1Low (newLeads_lists s) <> "" /\
       channels_frontDesk s <> "" /\
       missing (validateStructure s) = []).
Proof.
  unfold validateStructure. cbv [valid missing].
  rewrite is_empty_iff, !push_if_nil_iff, <- !eqb_empty_iff.
  tauto.
Qed.


Lemma valid_structure_lists (env : ProcessEnv) :
  valid (validateStructure (CLICKUP_STRUCTURE env)) = true ->
  (forall t : LeadTier, getListIdForTier (config_of_env env) t <> "") /\
  getFrontDeskChannelId (config_of_env env) <> "".
Proof.
  intro H. apply validateStructure_valid_iff_aux in H.
  destruct H as (_ & _ & _ & H4 & H3 & H2 & H1 & Hc & _).
  split; [ | exact Hc ].
  intro t. unfold getListIdForTier.
  change (lists (config_of_env env))
    with (newLeads_lists (CLICKUP_STRUCTURE env)).
  destruct (Z.eq_dec t 4) as [ -> | ]; [ exact H4 | ].
  destruct (Z.eq_dec t 3) as [ -> | ]; [ exact H3 | ].
  destruct (Z.eq_dec t 2) as [ -> | ]; [ exact H2 | ].
  destruct (Z.eq_dec t 1) as [ -> | ]; [ exact H1 | ].
  rewrite tier_switch_default by assumption. exact H2.
Qed.

Section ConfiguredRuns.

Variable World : Type.
Variable toLocaleDateString : string -> string.
Variable tza : Z.
Variable ext : External World.

(** In a process whose structure validates and whose task token is set,
    every lead that passes the gate reaches the task store: the run asks
    once for the task of the lead to be created, in a list that is not
    empty. *)
Theorem valid_structure_reaches_store
        (env : ProcessEnv) (lead : Lead) (w : World) :
  valid (validateStructure (CLICKUP_STRUCTURE env)) = true ->
  JS.truthy (env "CLICKUP_API_TOKEN") = true ->
  isActionReady lead = true ->
  exists r rest,
    events (processLeadToTask toLocaleDateString tza (config_of_env env) ext
              lead w)
    = EvCreateTask
        (task_for toLocaleDateString tza (config_of_env env) ext lead w) r
      :: rest /\
    listId (task_for toLocaleDateString tza (config_of_env env) ext lead w)
    <> "".
Proof.
  intros Hvalid Htoken Hready.
  destruct (valid_structure_lists env Hvalid) as [ Hlists _ ].
  pose proof (run_case World toLocaleDateString tza (config_of_env env) ext
                lead w) as C.
  inversion C; subst; cbv [events snd];
    try congruence;
    try (exfalso; eapply Hlists; eassumption);
    try (change (CLICKUP_API_TOKEN (config_of_env env))
           with (env "CLICKUP_API_TOKEN") in *; congruence);
    do 2 eexists; (split; [ reflexivity | apply Hlists ]).
Qed.

End ConfiguredRuns.

(** ** The lead webhook *)

Section WebhookFacts.

Variable toLowerCase : string -> string.
Variable replace_whitespace : string -> string.

Local Abbreviation transform :=
  (transformGHLContactToLead toLowerCase replace_whitespace).

Lemma has_permutation (s s' : list string) (x : string) :
  Permutation s s' -> has s x = has s' x.
Proof.
  intro P. unfold has.
  destruct (existsb (String.eqb x) s) eqn:E;
    destruct (existsb (String.eqb x) s') eqn:E'; try reflexivity.
  - apply existsb_exists in E. destruct E as (y & Hin & Hy).
    assert (existsb (String.eqb x) s' = true).
    { apply existsb_exists. exists y. split; [ | exact Hy ].
      eapply Permutation_in; eassumption. }
    congruence.
  - apply existsb_exists in E'. destruct E' as (y & Hin & Hy).
    assert (existsb (String.eqb x) s = true).
    { apply existsb_exists. exists y. split; [ | exact Hy ].
      eapply Permutation_in; [ apply Permutation_sym | ]; eassumption. }
    congruence.
Qed.

Lemma has_twice (t : string) (s : list string) (x : string) :
  has (t :: t :: s) x = has (t :: s) x.
Proof.
  unfold has. cbn [existsb]. destruct (String.eqb x t); reflexivity.
Qed.

(** The stage read from the tags does not depend on their order or on
    repetitions of a tag, and without tags it is [new]. *)
Theorem stage_independent_of_tag_order (tags tags' : list string) :
  (Permutation tags tags' ->
   determineLeadStage toLowerCase tags = determineLeadStage toLowerCase tags')
  /\
  (forall t, determineLeadStage toLowerCase (t :: t :: tags)
             = determineLeadStage toLowerCase (t :: tags)) /\
  determineLeadStage toLowerCase [] = stage_new.
Proof.
  split; [ | split; [ | reflexivity ] ].
  - intro P. unfold determineLeadStage.
    assert (P' : Permutation (map toLowerCase tags) (map toLowerCase tags'))
      by (apply Permutation_map; exact P).
    rewrite !(has_permutation _ _ _ P'). reflexivity.
  - intro t. unfold determineLeadStage. cbn [map].
    rewrite !has_twice. reflexivity.
Qed.

(** A lead built by the webhook that passes the gate on tier 2 or 3 is
    never cold: the engagement that opens the gate makes it warm or hot. *)
Theorem webhook_ready_lead_not_cold (payload : GHLLeadWebhook) :
  tier (transform payload) = 2 \/ tier (transform payload) = 3 ->
  isActionReady (transform payload) = true ->
  temperature (transform payload) <> cold.
Proof.
  intros Ht H. unfold isActionReady in H.
  destruct Ht as [ E | E ]; rewrite E in H; clear E;
    cbn [transformGHLContactToLead emailsOpened emailsClicked temperature]
      in *;
    unfold determineLeadTemperature;
    set (o := JS.or_zero (ghl_emails_opened _)) in *;
    set (c := JS.or_zero (ghl_emails_clicked _)) in *;
    match goal with
    | |- context [match ?s with Some b => b | None => false end] =>
        generalize (match s with Some b => b | None => false end)
    end;
    intro b;
    [ apply orb_true_iff in H | apply andb_true_iff in H ];
    rewrite !Z.leb_le in H;
    destruct (Z.leb_spec 2 c), b, (Z.leb_spec 2 o), (Z.leb_spec 1 c);
    simpl; try discriminate; lia.
Qed.

(** Parsing the name of a source gives the source back, for each of the
    eight sources, when lower-casing and hyphenation leave these names as
    they are. *)
Theorem parseLeadSource_round_trip :
  (forall src, replace_whitespace (toLowerCase (LeadSource_to_string src))
               = LeadSource_to_string src) ->
  forall src,
    parseLeadSource toLowerCase replace_whitespace (LeadSource_to_string src)
    = src.
Proof.
  intros Hfix src. unfold parseLeadSource. rewrite Hfix.
  destruct src; reflexivity.
Qed.

Variable World : Type.
Variable toLocaleDateString : string -> string.
Variable tza : Z.
Variable cfg : Config.
Variable ext : External World.

Variable TypeError_reading : string -> JSError.

Local Abbreviation handle :=
  (handler toLowerCase replace_whitespace World toLocaleDateString tza cfg
     ext TypeError_reading).
Local Abbreviation run := (processLeadToTask toLocaleDateString tza cfg ext).

(** A request that is not a POST is answered 405 and nothing else happens,
    whatever its body: no lead is processed and no call is made. *)
Theorem webhook_rejects_other_methods
        (method : string) (body : RequestBody) (w : World) :
  method <> "POST" ->
  handle method body w
  = (inr {| http_status := 405;
            http_json := [ ("error", JString "Method not allowed") ] |},
     w, []).
Proof.
  intro H. unfold handler.
  apply String.eqb_neq in H. rewrite H. reflexivity.
Qed.

Lemma handler_post (payload : GHLLeadWebhook) (w : World) :
  exists out w' ev,
    run (transform payload) w = (inr out, w', ev) /\
    handle "POST" (BodyPayload payload) w = (inr (respond out), w', ev).
Proof.
  destruct (processLeadToTask_returns World toLocaleDateString tza cfg ext
              (transform payload) w) as (out & w' & ev & Hrun).
  exists out, w', ev. split; [ exact Hrun | ].
  unfold handler. change (String.eqb "POST" "POST") with true.
  cbv beta iota zeta delta [negb try_catch bind ret].
  rewrite Hrun. rewrite app_nil_r. reflexivity.
Qed.

(** What the [catch] of the handler answers to the error [e]. *)
Lemma handler_post_without_lead (body : RequestBody) (e : JSError)
      (w : World) :
  (body = BodyAbsent /\ e = TypeError_reading "contact") \/
  (body = BodyWithoutContact /\ e = TypeError_reading "firstName") ->
  handle "POST" body w
  = (inr {| http_status := 500;
            http_json := [ ("success", JBool false);
                           ("error", JString (message e)) ] |},
     w, []).
Proof.
  intros [ [ -> -> ] | [ -> -> ] ]; reflexivity.
Qed.

(** A POST never makes the handler throw.  With a body of the declared
    shape the workflow runs on the lead built from it, and the answer, with
    the calls and the final world of that run, is 200 when the outcome
    reports success (task created, or lead not ready) and 500 when it
    reports failure.  With no body, or a body without contact, the handler's
    own [catch] answers 500 with the message of the [TypeError]: the
    workflow is not run and no call is made. *)
Theorem webhook_status_follows_outcome (w : World) :
  (forall payload,
      exists out w' ev,
        run (transform payload) w = (inr out, w', ev) /\
        handle "POST" (BodyPayload payload) w
        = (inr (respond out), w', ev) /\
        (success out = true -> http_status (respond out) = 200) /\
        (success out = false -> http_status (respond out) = 500)) /\
  handle "POST" BodyAbsent w
  = (inr {| http_status := 500;
            http_json :=
              [ ("success", JBool false);
                ("error", JString (message (TypeError_reading "contact"))) ]
         |}, w, []) /\
  handle "POST" BodyWithoutContact w
  = (inr {| http_status := 500;
            http_json :=
              [ ("success", JBool false);
                ("error",
                 JString (message (TypeError_reading "firstName"))) ]
         |}, w, []).
Proof.
  split; [ | split; apply handler_post_without_lead; auto ].
  intro payload.
  destruct (handler_post payload w) as (out & w' & ev & Hrun & Hh).
  exists out, w', ev.
  split; [ exact Hrun | ]. split; [ exact Hh | ].
  unfold respond.
  destruct (success out), (taskCreated out); simpl; split; intro;
    try reflexivity; discriminate.
Qed.

(** When the task was created and the notification then failed, the
    webhook answers 500 with the message of the notification error, and the
    answer carries neither the identifier nor the link of the task. *)
Theorem webhook_500_after_task_created
        (body : RequestBody) (w : World) (lead : Lead)
        (created : ClickUpTaskResponse)
        (userIds : list string) (channelId : string) (e : JSError) :
  In (EvNotify lead created userIds channelId (inl e))
     (events (handle "POST" body w)) ->
  (exists task,
      In (EvCreateTask task (inr created))
         (events (handle "POST" body w))) /\
  outcome (handle "POST" body w)
  = inr {| http_status := 500;
           http_json := [ ("success", JBool false);
                          ("error", JString (message e)) ] |}.
Proof.
  destruct body as [ | | payload ];
    try (intros [ ]).
  destruct (handler_post payload w) as (out & w' & ev & Hrun & Hh).
  rewrite Hh. cbv [events outcome fst snd].
  pose proof (run_case World toLocaleDateString tza cfg ext
                (transform payload) w) as C.
  rewrite Hrun in C. clear Hrun Hh.
  inversion C; subst; simpl; intro N;
    repeat (destruct N as [ N | N ]); try contradiction;
    try discriminate N.
  injection N as El Ec Eu Ech Ee. subst.
  split; [ eexists; left; reflexivity | reflexivity ].
Qed.

End WebhookFacts.

(** ** Patients *)

Section PatientFacts.

Variable Date_parse : string -> option Z.

Lemma inactive_whole_days_aux
      (now : Z) (patient : Patient) (inactiveDays : Z)
      (date : string) (t : Z) :
  pt_lastVisitDate patient = Some date -> date <> "" ->
  Date_parse date = Some t ->
  (isPatientInactive Date_parse now patient inactiveDays = true
   <-> inactiveDays * 86400000 <= now - t).
Proof.
  intros Hd Hne Hp. unfold isPatientInactive.
  rewrite Hd. rewrite truthy_Some by assumption.
  simpl negb. cbv iota. simpl JS.interp. rewrite Hp.
  change (1000 * 60 * 60 * 24) with 86400000.
  rewrite Z.leb_le. Z.div_mod_to_equations. lia.
Qed.

(** With a last visit on record whose date parses to [t], a patient is
    inactive exactly when at least [inactiveDays] whole days have passed:
    [inactiveDays * 86400000 <= now - t]. *)
Theorem inactive_after_whole_days
        (now : Z) (patient : Patient) (inactiveDays : Z)
        (date : string) (t : Z) :
  pt_lastVisitDate patient = Some date -> date <> "" ->
  Date_parse date = Some t ->
  (isPatientInactive Date_parse now patient inactiveDays = true
   <-> inactiveDays * 86400000 <= now - t).
Proof. apply inactive_whole_days_aux. Qed.

(** Without a last visit on record (absent or empty) a patient is
    inactive, whatever the threshold; with a last visit whose date does not
    parse, a patient is never inactive, whatever the threshold. *)
Theorem inactive_without_usable_date
        (now : Z) (patient : Patient) (inactiveDays : Z) :
  (JS.truthy (pt_lastVisitDate patient) = false ->
   isPatientInactive Date_parse now patient inactiveDays = true) /\
  (forall date,
      pt_lastVisitDate patient = Some date -> date <> "" ->
      Date_parse date = None ->
      isPatientInactive Date_parse now patient inactiveDays = false).
Proof.
  unfold isPatientInactive. split.
  - intro H. rewrite H. reflexivity.
  - intros date Hd Hne Hp. rewrite Hd.
    rewrite truthy_Some by assumption.
    simpl. rewrite Hp. reflexivity.
Qed.

(** A lead turned into a patient: the list of conditions holds the general
    condition alone or nothing, and what it holds is the primary condition;
    a lead with only a detailed condition gets that one as primary
    condition and an empty list.  The patient starts with one visit, its
    first visit being its last, and is inactive at threshold [d] exactly
    when the first visit is [d] whole days old. *)
Theorem leadToPatient_conditions_and_visits
        (nowISO : string) (lead : Lead) (chiroHdPatientId : string)
        (firstVisitDate : string) :
  let patient :=
    leadToPatient nowISO lead chiroHdPatientId firstVisitDate in
  (JS.truthy (condition lead) = true ->
   pt_conditions patient = Some [JS.interp (condition lead)] /\
   pt_primaryCondition patient = Some (JS.interp (condition lead))) /\
  (JS.truthy (condition lead) = false ->
   pt_conditions patient = Some [] /\
   pt_primaryCondition patient = specificCondition lead) /\
  pt_visitCount patient = 1 /\
  pt_firstVisitDate patient = pt_lastVisitDate patient /\
  (forall now d t,
      firstVisitDate <> "" -> Date_parse firstVisitDate = Some t ->
      (isPatientInactive Date_parse now patient d = true
       <-> d * 86400000 <= now - t)).
Proof.
  simpl. unfold JS.or_else.
  split; [ | split; [ | split; [ reflexivity | split; [ reflexivity | ] ] ] ].
  - intro H. rewrite H.
    destruct (truthy_nonempty _ H) as [ _ E ].
    split; [ reflexivity | exact E ].
  - intro H. rewrite H. auto.
  - intros now d t Hne Hp.
    apply (inactive_whole_days_aux now _ d firstVisitDate t);
      [ reflexivity | assumption | assumption ].
Qed.

End PatientFacts.

(** ** The logger *)

Lemma indexOf_unknown_level (s : string) :
  (forall c, s <> LogLevel_to_string c) ->
  indexOf s (map LogLevel_to_string [ERROR; WARN; INFO; DEBUG]) = -1.
Proof.
  intro H. cbn [map indexOf].
  assert (E : forall c, String.eqb (LogLevel_to_string c) s = false).
  { intro c. apply String.eqb_neq. intro Heq. apply (H c). auto. }
  rewrite (E ERROR), (E WARN), (E INFO), (E DEBUG). reflexivity.
Qed.

(** With [LOG_LEVEL] unset or empty the logger works at level [info]:
    everything but debug messages is logged.  With any of the four level
    names, errors are logged.  With any other text in [LOG_LEVEL], nothing
    is logged, errors included. *)
Theorem logger_threshold :
  (forall env : ProcessEnv,
      JS.truthy (env "LOG_LEVEL") = false ->
      forall level,
        shouldLog (Logger_logLevel env) level = true <-> level <> DEBUG) /\
  (forall configured : LogLevel,
      shouldLog (LogLevel_to_string configured) ERROR = true) /\
  (forall env : ProcessEnv,
      JS.truthy (env "LOG_LEVEL") = true ->
      (forall c, JS.interp (env "LOG_LEVEL") <> LogLevel_to_string c) ->
      forall level, shouldLog (Logger_logLevel env) level = false).
Proof.
  split; [ | split ].
  - intros env H level. unfold Logger_logLevel. rewrite H.
    destruct level; split; intro; try reflexivity; try discriminate;
      contradiction.
  - intro configured. destruct configured; reflexivity.
  - intros env H Hunknown level. unfold Logger_logLevel. rewrite H.
    unfold shouldLog. cbv zeta.
    rewrite (indexOf_unknown_level _ Hunknown).
    destruct level; reflexivity.
Qed.

(** ** The further properties at the sample data *)

Lemma outcome_flags_consistent_witness :
  exists out w' ev,
    processLeadToTask Sample.locale 0 Sample.configured Sample.slack_down
      Sample.sarah 0%nat = (inr out, w', ev) /\
    taskCreated out = false /\ slackNotified out = false /\
    taskId out = None /\ taskUrl out = None /\ error out <> None.
Proof.
  do 3 eexists. split; [ vm_compute; reflexivity | ].
  refine (proj1 (proj2 (proj2
            (outcome_flags_consistent nat Sample.locale 0 Sample.configured
               Sample.slack_down Sample.sarah 0%nat _ _ _ _))) _).
  - vm_compute. reflexivity.
  - reflexivity.
Defined.

Lemma outcome_never_overclaims_witness :
  exists out w' ev,
    processLeadToTask Sample.locale 0 Sample.configured Sample.healthy
      Sample.sarah 0%nat = (inr out, w', ev) /\
    taskCreated out = true /\
    exists created,
      In (EvCreateTask
            (task_for Sample.locale 0 Sample.configured Sample.healthy
               Sample.sarah 0%nat) (inr created)) ev /\
      taskId out = Some (resp_id created) /\
      taskUrl out = Some (resp_url created).
Proof.
  do 3 eexists. split; [ vm_compute; reflexivity | ].
  split; [ reflexivity | ].
  refine (proj1 (outcome_never_overclaims nat Sample.locale 0
                   Sample.configured Sample.healthy Sample.sarah 0%nat
                   _ _ _ _) _).
  - vm_compute. reflexivity.
  - reflexivity.
Defined.

Lemma create_call_only_when_ready_witness :
  isActionReady Sample.michael = true /\
  (tier Sample.michael = 4 \/ tier Sample.michael = 3 \/
   tier Sample.michael = 2 \/ tier Sample.michael = 1) /\
  listId (task_for Sample.locale 0 Sample.configured Fixture.store_down
            Sample.michael 0%nat)
  = getListIdForTier Sample.configured (tier Sample.michael).
Proof.
  destruct (create_call_only_when_ready nat Sample.locale 0
              Sample.configured Fixture.store_down Sample.michael 0%nat
              (task_for Sample.locale 0 Sample.configured Fixture.store_down
                 Sample.michael 0%nat)
              (inl (mkError "Request failed with status code 401")))
    as (Hready & Htier & _ & Hlist & _).
  - vm_compute. left. reflexivity.
  - split; [ exact Hready | ]. split; [ exact Htier | exact Hlist ].
Defined.

Lemma batch_of_unready_leads_witness :
  processMultipleLeads Sample.locale 0 Sample.configured Sample.healthy
    [Sample.jessica; Sample.tier5] 0%nat
  = (inr [not_ready; not_ready], 0%nat, [EvDelay 1000; EvDelay 1000]).
Proof.
  apply (batch_of_unready_leads nat Sample.locale 0 Sample.configured
           Sample.healthy [Sample.jessica; Sample.tier5] 0%nat).
  intros lead [ <- | [ <- | [ ] ] ]; reflexivity.
Defined.

Lemma tier_monotone_in_data_witness :
  calculateLeadTier (partial_of Sample.jessica) = 3 /\
  calculateLeadTier (partial_of Sample.michael) = 4 /\
  calculateLeadTier (partial_of Sample.jessica)
  <= calculateLeadTier (partial_of Sample.michael).
Proof.
  split; [ reflexivity | ]. split; [ reflexivity | ].
  apply (tier_monotone_in_data (partial_of Sample.jessica)
           (partial_of Sample.michael)).
  unfold richer. repeat split; intro; try reflexivity; discriminate.
Defined.

Lemma tier_requirements_witness :
  calculateLeadTier (partial_of Sample.tier5) = 1 /\
  present (p_condition (partial_of Sample.jessica)) = true.
Proof.
  split.
  - apply (proj1 (tier_requirements (partial_of Sample.tier5))).
    left. reflexivity.
  - apply (proj1 (proj2 (proj2 (tier_requirements
                                  (partial_of Sample.jessica))))).
    reflexivity.
Defined.

Lemma gate_monotone_in_engagement_witness :
  isActionReady Sample.michael = true /\
  isActionReady
    (Fixture.with_engagement Sample.michael (Some 7) (Some 1) engaged)
  = true.
Proof.
  split; [ reflexivity | ].
  apply (gate_monotone_in_engagement Sample.michael
           (Fixture.with_engagement Sample.michael (Some 7) (Some 1)
              engaged)).
  - reflexivity.
  - reflexivity.
  - discriminate.
  - discriminate.
  - reflexivity.
Defined.

Lemma gate_inputs_by_tier_witness :
  isActionReady
    (Fixture.with_engagement Sample.michael (Some 2) (Some 1) lost)
  = isActionReady Sample.michael /\
  isActionReady
    (Fixture.with_engagement Sample.sarah None None action_ready)
  = isActionReady Sample.sarah.
Proof.
  split.
  - apply (proj1 (gate_inputs_by_tier Sample.michael
                    (Fixture.with_engagement Sample.michael (Some 2)
                       (Some 1) lost)
                    eq_refl));
      [ right; reflexivity | reflexivity | reflexivity ].
  - apply (proj2 (gate_inputs_by_tier Sample.sarah
                    (Fixture.with_engagement Sample.sarah None None
                       action_ready)
                    eq_refl));
      [ left; reflexivity | reflexivity ].
Defined.

Lemma task_name_display_witness :
  exists display,
    generateTaskName Sample.tier5
    = "Follow up with " ++ display ++ " (Tier " ++
      JS.number_to_string (tier Sample.tier5) ++ ")" /\
    socialHandle Sample.tier5 = Some display.
Proof.
  destruct (task_name_display Sample.tier5)
    as (display & Hname & _ & _ & Hother).
  exists display. split; [ exact Hname | ].
  destruct (Hother eq_refl)
    as [ (H & _) | [ (_ & H & _) | [ (_ & _ & _ & H) | (_ & _ & H & _) ] ] ];
    try discriminate H.
  exact H.
Defined.

Lemma create_request_of_lead_witness :
  pl_priority
    (createTask_payload
       (buildTaskFromLead Sample.locale 0 Sample.at_14h Sample.sarah
          "901100000004" []))
  = 5 - tier Sample.sarah /\
  pl_priority
    (createTask_payload
       (buildTaskFromLead Sample.locale 0 Sample.at_14h Sample.tier5
          "901100000002" []))
  = 3.
Proof.
  split.
  - apply (create_request_of_lead Sample.locale 0 Sample.at_14h
             Sample.sarah "901100000004" []).
    left. reflexivity.
  - apply (create_request_of_lead Sample.locale 0 Sample.at_14h
             Sample.tier5 "901100000002" []); discriminate.
Defined.


Lemma valid_structure_reaches_store_witness :
  exists r rest,
    events (processLeadToTask Sample.locale 0
              (config_of_env Fixture.env_full) Fixture.store_down
              Sample.michael 0%nat)
    = EvCreateTask
        (task_for Sample.locale 0 (config_of_env Fixture.env_full)
           Fixture.store_down Sample.michael 0%nat) r
      :: rest /\
    listId (task_for Sample.locale 0 (config_of_env Fixture.env_full)
              Fixture.store_down Sample.michael 0%nat)
    <> "".
Proof.
  apply (valid_structure_reaches_store nat Sample.locale 0
           Fixture.store_down Fixture.env_full Sample.michael 0%nat);
    reflexivity.
Defined.

Lemma stage_independent_of_tag_order_witness :
  determineLeadStage Fixture.toLowerCase ["Engaged"; "Scheduled"]
  = determineLeadStage Fixture.toLowerCase ["Scheduled"; "Engaged"] /\
  determineLeadStage Fixture.toLowerCase ["Scheduled"; "Engaged"]
  = scheduled.
Proof.
  split; [ | reflexivity ].
  apply (proj1 (stage_independent_of_tag_order Fixture.toLowerCase
                  ["Engaged"; "Scheduled"] ["Scheduled"; "Engaged"])).
  apply perm_swap.
Defined.

Lemma webhook_ready_lead_not_cold_witness :
  tier (transformGHLContactToLead Fixture.toLowerCase
          Fixture.replace_whitespace Fixture.ghl_payload) = 3 /\
  isActionReady (transformGHLContactToLead Fixture.toLowerCase
                   Fixture.replace_whitespace Fixture.ghl_payload) = true /\
  temperature (transformGHLContactToLead Fixture.toLowerCase
                 Fixture.replace_whitespace Fixture.ghl_payload) <> cold.
Proof.
  split; [ reflexivity | ]. split; [ reflexivity | ].
  apply (webhook_ready_lead_not_cold Fixture.toLowerCase
           Fixture.replace_whitespace Fixture.ghl_payload).
  - right. reflexivity.
  - reflexivity.
Defined.

Lemma parseLeadSource_round_trip_witness :
  parseLeadSource Fixture.toLowerCase Fixture.replace_whitespace
    (LeadSource_to_string walk_in) = walk_in /\
  parseLeadSource Fixture.toLowerCase Fixture.replace_whitespace
    (LeadSource_to_string manual_entry) = manual_entry.
Proof.
  split;
    apply (parseLeadSource_round_trip Fixture.toLowerCase
             Fixture.replace_whitespace);
    intro src; destruct src; reflexivity.
Defined.

Lemma webhook_rejects_other_methods_witness :
  handler Fixture.toLowerCase Fixture.replace_whitespace nat Sample.locale 0
    Sample.configured Sample.healthy Fixture.TypeError_reading "GET"
    BodyAbsent 0%nat
  = (inr {| http_status := 405;
            http_json := [ ("error", JString "Method not allowed") ] |},
     0%nat, []).
Proof.
  apply (webhook_rejects_other_methods Fixture.toLowerCase
           Fixture.replace_whitespace nat Sample.locale 0 Sample.configured
           Sample.healthy Fixture.TypeError_reading "GET" BodyAbsent 0%nat).
  discriminate.
Defined.

Lemma webhook_status_follows_outcome_witness :
  (exists out w' ev,
      handler Fixture.toLowerCase Fixture.replace_whitespace nat
        Sample.locale 0 Sample.tier3_unset Sample.healthy
        Fixture.TypeError_reading "POST" (BodyPayload Fixture.ghl_payload)
        0%nat
      = (inr (respond out), w', ev) /\
      success out = false /\ http_status (respond out) = 500) /\
  handler Fixture.toLowerCase Fixture.replace_whitespace nat Sample.locale 0
    Sample.configured Sample.healthy Fixture.TypeError_reading "POST"
    BodyWithoutContact 0%nat
  = (inr {| http_status := 500;
            http_json :=
              [ ("success", JBool false);
                ("error",
                 JString
                   "Cannot read properties of undefined (reading 'firstName')")
              ] |}, 0%nat, []).
Proof.
  split.
  - destruct (proj1 (webhook_status_follows_outcome Fixture.toLowerCase
                       Fixture.replace_whitespace nat Sample.locale 0
                       Sample.tier3_unset Sample.healthy
                       Fixture.TypeError_reading 0%nat)
                Fixture.ghl_payload)
      as (out & w' & ev & Hrun & Hh & _ & H500).
    exists out, w', ev. split; [ exact Hh | ].
    assert (Hs : success out = false).
    { vm_compute in Hrun. injection Hrun as <- _ _. reflexivity. }
    split; [ exact Hs | exact (H500 Hs) ].
  - apply (proj2 (proj2 (webhook_status_follows_outcome Fixture.toLowerCase
                           Fixture.replace_whitespace nat Sample.locale 0
                           Sample.configured Sample.healthy
                           Fixture.TypeError_reading 0%nat))).
Defined.

Lemma webhook_500_after_task_created_witness :
  outcome
    (handler Fixture.toLowerCase Fixture.replace_whitespace nat Sample.locale
       0 Sample.configured Sample.slack_down Fixture.TypeError_reading
       "POST" (BodyPayload Fixture.ghl_payload) 0%nat)
  = inr {| http_status := 500;
           http_json :=
             [ ("success", JBool false);
               ("error", JString "Slack API error: channel_not_found") ] |}.
Proof.
  refine (proj2 (webhook_500_after_task_created Fixture.toLowerCase
                   Fixture.replace_whitespace nat Sample.locale 0
                   Sample.configured Sample.slack_down
                   Fixture.TypeError_reading
                   (BodyPayload Fixture.ghl_payload) 0%nat _ _ _ _
                   (mkError "Slack API error: channel_not_found") _)).
  vm_compute. right. left. reflexivity.
Defined.

Lemma inactive_after_whole_days_witness :
  isPatientInactive Fixture.Date_parse Sample.at_14h
    Fixture.patient_of_michael 30 = true /\
  isPatientInactive Fixture.Date_parse Sample.at_14h
    Fixture.patient_of_michael 47 <> true.
Proof.
  split.
  - apply (inactive_after_whole_days Fixture.Date_parse Sample.at_14h
             Fixture.patient_of_michael 30 "2025-11-01T00:00:00.000Z"
             1761955200000 eq_refl ltac:(discriminate) eq_refl).
    discriminate.
  - intro H.
    apply (inactive_after_whole_days Fixture.Date_parse Sample.at_14h
             Fixture.patient_of_michael 47 "2025-11-01T00:00:00.000Z"
             1761955200000 eq_refl ltac:(discriminate) eq_refl) in H.
    revert H. vm_compute. intro H. apply H. reflexivity.
Defined.

Lemma inactive_without_usable_date_witness :
  isPatientInactive Fixture.Date_parse Sample.at_14h
    (leadToPatient "2025-12-17T14:00:00.000Z" Sample.michael "chd-77" "")
    30 = true /\
  isPatientInactive Fixture.Date_parse Sample.at_14h
    (leadToPatient "2025-12-17T14:00:00.000Z" Sample.michael "chd-77"
       "last spring")
    0 = false.
Proof.
  split.
  - apply (inactive_without_usable_date Fixture.Date_parse Sample.at_14h
             (leadToPatient "2025-12-17T14:00:00.000Z" Sample.michael
                "chd-77" "") 30).
    reflexivity.
  - apply (proj2 (inactive_without_usable_date Fixture.Date_parse
                    Sample.at_14h
                    (leadToPatient "2025-12-17T14:00:00.000Z" Sample.michael
                       "chd-77" "last spring") 0)
             "last spring" eq_refl ltac:(discriminate) eq_refl).
Defined.

Lemma leadToPatient_conditions_and_visits_witness :
  pt_conditions Fixture.patient_of_michael
  = Some ["Neck pain and headaches"] /\
  pt_primaryCondition Fixture.patient_of_michael
  = Some "Neck pain and headaches".
Proof.
  apply (proj1 (leadToPatient_conditions_and_visits Fixture.Date_parse
                  "2025-12-17T14:00:00.000Z" Sample.michael "chd-77"
                  "2025-11-01T00:00:00.000Z")).
  reflexivity.
Defined.

Lemma logger_threshold_witness :
  shouldLog (Logger_logLevel Fixture.env_verbose) ERROR = false /\
  shouldLog (Logger_logLevel Fixture.env_full) DEBUG <> true.
Proof.
  split.
  - apply (proj2 (proj2 logger_threshold) Fixture.env_verbose eq_refl).
    intro c. destruct c; discriminate.
  - intro H.
    apply (proj1 logger_threshold Fixture.env_full eq_refl DEBUG) in H.
    apply H. reflexivity.
Defined.

(** ** Due dates in the host time zone *)

Section HostZoneFacts.

Variable zone : HostZone.Zone.

Local Abbreviation due := (HostZone.calculateDueDate zone).
Local Abbreviation local := (HostZone.LocalTime zone).
Local Abbreviation utc := (HostZone.UTC zone).

(** [setHours(getHours() + k)] moves the local clock by [k] hours. *)
Lemma zone_setHours_getHours (d k : Z) :
  HostZone.setHours zone d (HostZone.getHours zone d + k) None None None
  = utc (local d + k * JSDate.msPerHour).
Proof.
  unfold HostZone.setHours, HostZone.getHours. f_equal.
  generalize (local d). intro t.
  unfold JSDate.MakeDate, JSDate.MakeTime, JSDate.opt_default,
    JSDate.HourFromTime, JSDate.MinFromTime, JSDate.SecFromTime,
    JSDate.msFromTime, JSDate.Day, JSDate.msPerDay, JSDate.msPerHour,
    JSDate.msPerMinute, JSDate.msPerSecond.
  Z.div_mod_to_equations. lia.
Qed.

(** [setDate(getDate() + k)] moves the local clock by [k] days. *)
Lemma zone_setDate_getDate (d k : Z) :
  HostZone.setDate zone d (HostZone.getDate zone d + k)
  = utc (local d + k * JSDate.msPerDay).
Proof.
  unfold HostZone.setDate, HostZone.getDate. f_equal.
  rewrite JSDateFacts.MakeDay_shift.
  pose proof (JSDateFacts.day_split (local d)) as E.
  unfold JSDate.MakeDate. lia.
Qed.

Lemma zone_setHours_17 (d : Z) :
  HostZone.setHours zone d 17 (Some 0) (Some 0) (Some 0)
  = utc (at_17 (JSDate.Day (local d))).
Proof. reflexivity. Qed.

Lemma zone_due_tier4 (t : Z) :
  due t 4 = utc (local t + 2 * JSDate.msPerHour).
Proof.
  unfold HostZone.calculateDueDate, HostZone.getTime.
  apply zone_setHours_getHours.
Qed.

Lemma zone_due_shifted (t k : Z) :
  HostZone.setHours zone
    (HostZone.setDate zone t (HostZone.getDate zone t + k))
    17 (Some 0) (Some 0) (Some 0)
  = utc (at_17 (JSDate.Day
                  (local (utc (local t + k * JSDate.msPerDay))))).
Proof. rewrite zone_setDate_getDate, zone_setHours_17. reflexivity. Qed.

Lemma zone_due_today (t : Z) :
  local_exists zone (at_17 (JSDate.Day (local t))) ->
  local (HostZone.setHours zone t 17 (Some 0) (Some 0) (Some 0))
  = at_17 (JSDate.Day (local t)).
Proof. intro E. rewrite zone_setHours_17. exact E. Qed.

Lemma zone_due_later (t k : Z) :
  lands_on_day zone (local t) k ->
  local_exists zone (at_17 (JSDate.Day (local t) + k)) ->
  local (HostZone.setHours zone
           (HostZone.setDate zone t (HostZone.getDate zone t + k))
           17 (Some 0) (Some 0) (Some 0))
  = at_17 (JSDate.Day (local t) + k).
Proof.
  intros Hday E. rewrite zone_due_shifted.
  unfold lands_on_day in Hday. rewrite Hday. exact E.
Qed.


End HostZoneFacts.

Lemma fixed_zone_getHours (tza d : Z) :
  HostZone.getHours (HostZone.fixed tza) d = JSDate.getHours tza d.
Proof. reflexivity. Qed.

Lemma fixed_zone_getDate (tza d : Z) :
  HostZone.getDate (HostZone.fixed tza) d = JSDate.getDate tza d.
Proof. reflexivity. Qed.

Lemma fixed_zone_setHours (tza d h : Z) (m s ms : option Z) :
  HostZone.setHours (HostZone.fixed tza) d h m s ms
  = JSDate.setHours tza d h m s ms.
Proof. reflexivity. Qed.

Lemma fixed_zone_setDate (tza d date : Z) :
  HostZone.setDate (HostZone.fixed tza) d date = JSDate.setDate tza d date.
Proof. reflexivity. Qed.

(** A zone whose offset never changes has every local time and gives the
    due dates of [calculateDueDate] at that offset. *)
Lemma fixed_zone_regular (tza now x L k : Z) (tier : LeadTier) :
  local_exists (HostZone.fixed tza) x /\
  lands_on_day (HostZone.fixed tza) L k /\
  HostZone.calculateDueDate (HostZone.fixed tza) now tier
  = calculateDueDate tza now tier.
Proof.
  split; [ | split ].
  - unfold local_exists, HostZone.LocalTime, HostZone.UTC, HostZone.fixed.
    lia.
  - unfold lands_on_day, HostZone.LocalTime, HostZone.UTC, HostZone.fixed.
    replace (L + k * JSDate.msPerDay - tza + tza)
      with (L + k * JSDate.msPerDay) by lia.
    apply JSDateFacts.Day_add.
  - unfold HostZone.calculateDueDate, calculateDueDate, HostZone.getTime,
      JSDate.getTime.
    cbv zeta.
    rewrite !fixed_zone_setDate, !fixed_zone_setHours, !fixed_zone_getHours,
      !fixed_zone_getDate.
    reflexivity.
Qed.

(** In New York at 01:30 on 2 November 2025, half an hour before the
    clocks go back, the tier-4 due date is three hours after [now]. *)
Lemma due_tier4_before_fall_back :
  HostZone.calculateDueDate HostZone.America_New_York_2025
    before_fall_back 4
  = before_fall_back + 3 * JSDate.msPerHour.
Proof. vm_compute. reflexivity. Qed.


